(** * sync_activities_to_sheets.py: merging Garmin activity files into sheet rows

    A shallow embedding of [src/sync_activities_to_sheets.py].  Python objects
    read from JSON are the inductive [value]; a Python [float] is an IEEE
    binary64 number ([PrimFloat.float]); a [str] is a [string], one character
    per [ascii] (code points below 256); a [dict] is an association list in
    insertion order.  A computation that may raise returns a [result]; the
    main loop, which prints, opens files and calls the worksheet, runs in the
    monad [M] over the state of the remote worksheet. *)

From Stdlib Require Import ZArith List String Ascii Bool Lia Floats Sorted.
Import ListNotations.

Open Scope string_scope.
Open Scope Z_scope.

(** ** Exceptions and results *)

(** The exceptions the script can meet; all of them derive from [Exception]. *)
Inductive exn : Type :=
| KeyError (key : string)
| TypeError
| ValueError
| AttributeError
| IndexError
| ZeroDivisionError
| OverflowError
| FileNotFoundError (path : string)
| JSONDecodeError (path : string)
| WorksheetNotFound
| APIError (msg : string).

Inductive result (A : Type) : Type :=
| Ok (a : A)
| Err (e : exn).

Arguments Ok {A} a.
Arguments Err {A} e.

Definition bind {A B : Type} (r : result A) (k : A -> result B) : result B :=
  match r with
  | Ok a => k a
  | Err e => Err e
  end.

Declare Scope result_scope.
Delimit Scope result_scope with result.
Notation "x <- r ;; k" := (bind r (fun x => k))
  (at level 61, r at next level, right associativity) : result_scope.
Open Scope result_scope.

Definition is_ok {A : Type} (r : result A) : bool :=
  match r with Ok _ => true | Err _ => false end.

Fixpoint mapM {A B : Type} (f : A -> result B) (l : list A) : result (list B) :=
  match l with
  | [] => Ok []
  | a :: l' => b <- f a ;; bs <- mapM f l' ;; Ok (b :: bs)
  end.

(** ** Python values *)

#[warnings="-register-all"]
Inductive value : Type :=
| VNone
| VBool (b : bool)
| VInt (z : Z)
| VFloat (f : float)
| VStr (s : string)
| VList (l : list value)
| VDict (d : list (string * value)).

Definition dict : Type := list (string * value).

(** [d.get(k)] as an option, first binding of the key. *)
Fixpoint dict_get (d : dict) (k : string) : option value :=
  match d with
  | [] => None
  | (k', v) :: d' => if String.eqb k' k then Some v else dict_get d' k
  end.

(** [d.get(k, default)]. *)
Definition dict_get_default (d : dict) (k : string) (default : value) : value :=
  match dict_get d k with
  | Some v => v
  | None => default
  end.

(** [d[k] = v]: the binding is replaced where it stands, or added at the end. *)
Fixpoint dict_set (d : dict) (k : string) (v : value) : dict :=
  match d with
  | [] => [(k, v)]
  | (k', v') :: d' =>
      if String.eqb k' k then (k', v) :: d' else (k', v') :: dict_set d' k v
  end.

(** [obj[k]] for a string key [k]: a [KeyError] on a dict without the key, a
    [TypeError] on anything that is not a dict. *)
Definition subscript (obj : value) (k : string) : result value :=
  match obj with
  | VDict d =>
      match dict_get d k with
      | Some v => Ok v
      | None => Err (KeyError k)
      end
  | _ => Err TypeError
  end.

(** [obj.get(k, default)]: only a dict has the method. *)
Definition get_method (obj : value) (k : string) (default : value) : result value :=
  match obj with
  | VDict d => Ok (dict_get_default d k default)
  | _ => Err AttributeError
  end.

(** [isinstance(val, (dict, list))]. *)
Definition is_nested (v : value) : bool :=
  match v with
  | VList _ | VDict _ => true
  | _ => false
  end.

(** Truth value of an object, as [if x:] tests it. *)
Definition truthy (v : value) : bool :=
  match v with
  | VNone => false
  | VBool b => b
  | VInt z => negb (z =? 0)
  | VFloat f => negb (PrimFloat.eqb f 0%float)
  | VStr s => negb (String.eqb s "")
  | VList l => match l with [] => false | _ => true end
  | VDict d => match d with [] => false | _ => true end
  end.

(** ** Python numbers *)

Definition is_infinite (x : spec_float) : bool :=
  match x with S754_infinity _ => true | _ => false end.

(** The quotient of two integers, correctly rounded to binary64 (ties to
    even); the divisor is not zero.  A zero dividend keeps the sign of the
    quotient. *)
Definition Z_div_float (a b : Z) : spec_float :=
  let s := xorb (a <? 0) (b <? 0) in
  if a =? 0 then S754_zero s
  else
    let '(mz, ez, lz) := SFdiv_core_binary prec emax (Z.abs a) 0 (Z.abs b) 0 in
    binary_round_aux prec emax s mz ez lz.

(** [a / b] on two [int]s. *)
Definition int_truediv (a b : Z) : result float :=
  if b =? 0 then Err ZeroDivisionError
  else
    let q := Z_div_float a b in
    if is_infinite q then Err OverflowError else Ok (SF2Prim q).

(** [float(z)] for an [int]. *)
Definition float_of_int (z : Z) : result float :=
  let x := binary_normalize prec emax z 0 false in
  if is_infinite x then Err OverflowError else Ok (SF2Prim x).

(** [a / b] on two [float]s. *)
Definition float_truediv (a b : float) : result float :=
  if PrimFloat.eqb b 0%float then Err ZeroDivisionError else Ok (a / b)%float.

Definition Z_of_bool (b : bool) : Z := if b then 1 else 0.

(** The operator [/]: [bool] is a subclass of [int]; an [int] meeting a
    [float] is converted first; anything else is a [TypeError]. *)
Definition py_truediv (x y : value) : result value :=
  let as_num (v : value) : option (Z + float) :=
    match v with
    | VBool b => Some (inl (Z_of_bool b))
    | VInt z => Some (inl z)
    | VFloat f => Some (inr f)
    | _ => None
    end in
  match as_num x, as_num y with
  | Some (inl a), Some (inl b) => q <- int_truediv a b ;; Ok (VFloat q)
  | Some (inl a), Some (inr b) =>
      fa <- float_of_int a ;; q <- float_truediv fa b ;; Ok (VFloat q)
  | Some (inr a), Some (inl b) =>
      fb <- float_of_int b ;; q <- float_truediv a fb ;; Ok (VFloat q)
  | Some (inr a), Some (inr b) => q <- float_truediv a b ;; Ok (VFloat q)
  | _, _ => Err TypeError
  end.

(** The integer nearest to [num / den] ([den] positive), ties to even. *)
Definition Z_div_nearest_even (num den : Z) : Z :=
  let (q, r) := Z.div_eucl num den in
  match 2 * r ?= den with
  | Lt => q
  | Gt => q + 1
  | Eq => if Z.even q then q else q + 1
  end.

(** [round(x, ndigits)] on a [float], for [ndigits >= 0]: the decimal with
    [ndigits] places nearest to the exact value of [x] (ties to even), read
    back as the nearest binary64 number.  Infinities and NaN round to
    themselves, and the sign of a zero result is the sign of [x]. *)
Definition float_round (x : float) (ndigits : Z) : result float :=
  match Prim2SF x with
  | S754_finite s m e =>
      let scale := 10 ^ ndigits in
      let n :=
        if 0 <=? e then Zpos m * 2 ^ e * scale
        else Z_div_nearest_even (Zpos m * scale) (2 ^ (- e)) in
      let r := Z_div_float (if s then - n else n) scale in
      let r := match r with S754_zero _ => S754_zero s | _ => r end in
      if is_infinite r then Err OverflowError else Ok (SF2Prim r)
  | _ => Ok x
  end.

(** [round(x, ndigits)]: an [int] or [bool] rounds to the [int] itself when
    [ndigits >= 0]; other objects have no [__round__]. *)
Definition py_round (x : value) (ndigits : Z) : result value :=
  match x with
  | VFloat f => r <- float_round f ndigits ;; Ok (VFloat r)
  | VInt z => Ok (VInt z)
  | VBool b => Ok (VInt (Z_of_bool b))
  | _ => Err TypeError
  end.

(** ** Strings and paths *)

(** [len(s)]. *)
Definition str_len (s : string) : Z := Z.of_nat (String.length s).

(** [s[:n]] for [n >= 0]. *)
Fixpoint str_take (n : nat) (s : string) : string :=
  match n, s with
  | S n', String c s' => String c (str_take n' s')
  | _, _ => ""
  end.

Definition str_slice_to (s : string) (n : Z) : string := str_take (Z.to_nat n) s.

(** [s.rsplit(c, 1)] when [c] occurs in [s]: the text before and after its
    last occurrence. *)
Fixpoint rsplit1 (c : ascii) (s : string) : option (string * string) :=
  match s with
  | "" => None
  | String a s' =>
      match rsplit1 c s' with
      | Some (before, after) => Some (String a before, after)
      | None => if Ascii.eqb a c then Some ("", s') else None
      end
  end.

Fixpoint all_dots (s : string) : bool :=
  match s with
  | "" => true
  | String a s' => Ascii.eqb a "." && all_dots s'
  end.

Definition ends_with_slash (s : string) : bool :=
  match rsplit1 "/" s with
  | Some (_, "") => true
  | _ => false
  end.

(** [os.path.join(a, b)], [os.path.basename(p)] and [os.path.splitext(p)[0]]
    in their POSIX flavour.  [splitext] is applied to base names only, which
    hold no separator: the extension starts at the last dot, unless only dots
    stand before it. *)
Definition os_path_join (a b : string) : string :=
  if String.prefix "/" b then b
  else if String.eqb a "" || ends_with_slash a then a ++ b
  else a ++ "/" ++ b.

Definition os_path_basename (p : string) : string :=
  match rsplit1 "/" p with
  | Some (_, after) => after
  | None => p
  end.

Definition os_path_splitext_root (p : string) : string :=
  match rsplit1 "." p with
  | Some (root, _) => if all_dots root then p else root
  | None => p
  end.

(** [fnmatch] for a pattern whose only special character is [*]. *)
Fixpoint fnmatch (pat name : string) {struct pat} : bool :=
  match pat with
  | "" => String.eqb name ""
  | String c pat' =>
      if Ascii.eqb c "*" then
        (fix star (rest : string) : bool :=
           fnmatch pat' rest ||
           match rest with
           | "" => false
           | String _ rest' => star rest'
           end) name
      else
        match name with
        | "" => false
        | String d name' => Ascii.eqb c d && fnmatch pat' name'
        end
  end.

(** Insertion sort by code points: [sorted] on a list of strings. *)
Fixpoint insert_sorted (x : string) (l : list string) : list string :=
  match l with
  | [] => [x]
  | y :: l' => if String.leb x y then x :: l else y :: insert_sorted x l'
  end.

Definition py_sorted (l : list string) : list string :=
  fold_right insert_sorted [] l.

Definition str_mem (x : string) (l : list string) : bool :=
  existsb (String.eqb x) l.

(** A [set] of strings as the list of its elements, each once. *)
Fixpoint set_of_list (l : list string) : list string :=
  match l with
  | [] => []
  | x :: l' => if str_mem x l' then set_of_list l' else x :: set_of_list l'
  end.

(** [a & b]. *)
Definition set_inter (a b : list string) : list string :=
  filter (fun x => str_mem x b) a.

(** ** Dates *)

(** A [datetime]: microseconds on its own clock since 0001-01-01T00:00, and
    its UTC offset in microseconds when it is aware. *)
Record datetime : Type := {
  dt_micros : Z;
  dt_utcoffset : option Z
}.

(** [a - b], in microseconds: two naive datetimes are subtracted as they
    stand, two aware ones after conversion to UTC, and mixing them is a
    [TypeError]. *)
Definition datetime_sub (a b : datetime) : result Z :=
  match dt_utcoffset a, dt_utcoffset b with
  | None, None => Ok (dt_micros a - dt_micros b)
  | Some oa, Some ob => Ok ((dt_micros a - oa) - (dt_micros b - ob))
  | _, _ => Err TypeError
  end.

(** [timedelta.total_seconds()]: the microseconds divided by [10**6]. *)
Definition total_seconds (td : Z) : result float := int_truediv td (10 ^ 6).

(** ** The library functions the script calls

    [json.dumps(_, ensure_ascii=False)] and [datetime.fromisoformat] on a
    [str] belong to the Python library; the program is embedded over any
    behaviour of the two. *)
Class Runtime : Type := {
  json_dumps : value -> string;
  fromisoformat : string -> result datetime
}.

(** ** Configuration *)

Definition ACTIVITIES_DIR : string := "C:/Users/loys_/HealthData/FitFiles/Activities".
Definition CHUNK_SIZE : nat := 100.
Definition MAX_CELL_LENGTH : Z := 50000.

Definition HEADERS : list string := [
  "activityId"; "activityName"; "activityTypeId"; "parentActivityTypeId";
  "eventTypeId"; "manualActivity"; "favorite"; "personalRecord";
  "startTimeLocal"; "startTimeGMT"; "activityTimestampMs"; "duration";
  "movingDuration"; "elapsedDuration"; "timezoneOffset";
  "distance"; "averageSpeed"; "maxSpeed"; "averageStrideLength";
  "averagePaceMinPerKm"; "totalElevationGain"; "totalElevationLoss";
  "minElevation"; "maxElevation"; "startLatitude"; "startLongitude";
  "endLatitude"; "endLongitude"; "averageHeartRate"; "maxHeartRate";
  "averageCadence"; "maxCadence"; "totalSteps"; "vo2MaxValue";
  "activeKilocalories"; "bmrKilocalories"; "bodyBatteryDelta";
  "hrZone1Seconds"; "hrZone2Seconds"; "hrZone3Seconds"; "hrZone4Seconds";
  "hrZone5Seconds"; "moderateIntensityMinutes"; "vigorousIntensityMinutes";
  "hydrationConsumedMl"; "splitsJSON"
].

(** ** Derived fields *)

Definition compute_stride_length (distance_m total_steps : value) : result value :=
  if truthy total_steps then
    q <- py_truediv distance_m total_steps ;; py_round q 3
  else Ok (VStr "").

Definition compute_pace_min_per_km (avg_speed_m_s : value) : result value :=
  if truthy avg_speed_m_s then
    pace_sec <- py_truediv (VInt 1000) avg_speed_m_s ;;
    q <- py_truediv pace_sec (VInt 60) ;;
    py_round q 2
  else Ok (VStr "").

Section Program.

Context {RT : Runtime}.

(** ** merge_data *)

(** [datetime.fromisoformat(x)] on any object. *)
Definition datetime_fromisoformat (x : value) : result datetime :=
  match x with
  | VStr s => fromisoformat s
  | _ => Err TypeError
  end.

(** Lines 66-69: the two start times parsed, subtracted, and the seconds
    divided by 3600. *)
Definition tz_offset_hours (start_local start_gmt : value) : result value :=
  a <- datetime_fromisoformat start_local ;;
  b <- datetime_fromisoformat start_gmt ;;
  td <- datetime_sub a b ;;
  secs <- total_seconds td ;;
  py_truediv (VFloat secs) (VInt 3600).

(** [obj[k1][k2]]. *)
Definition subscript2 (obj : value) (k1 k2 : string) : result value :=
  inner <- subscript obj k1 ;; subscript inner k2.

Definition merge_data (details flat : value) : result dict :=
  start_local <- subscript2 details "summaryDTO" "startTimeLocal" ;;
  start_gmt <- subscript2 details "summaryDTO" "startTimeGMT" ;;
  tz_offset_h <- tz_offset_hours start_local start_gmt ;;
  activityId <- subscript details "activityId" ;;
  activityName <- subscript details "activityName" ;;
  activityTypeId <- subscript2 details "activityTypeDTO" "typeId" ;;
  parentActivityTypeId <- subscript2 details "activityTypeDTO" "parentTypeId" ;;
  eventTypeId <- subscript2 details "eventTypeDTO" "typeId" ;;
  manualActivity <- subscript2 details "metadataDTO" "manualActivity" ;;
  favorite <- subscript2 details "metadataDTO" "favorite" ;;
  personalRecord <- subscript2 details "metadataDTO" "personalRecord" ;;
  activityTimestampMs <- get_method flat "beginTimestamp" VNone ;;
  duration <- subscript2 details "summaryDTO" "duration" ;;
  movingDuration <- subscript2 details "summaryDTO" "movingDuration" ;;
  elapsedDuration <- subscript2 details "summaryDTO" "elapsedDuration" ;;
  distance <- subscript2 details "summaryDTO" "distance" ;;
  averageSpeed <- subscript2 details "summaryDTO" "averageSpeed" ;;
  maxSpeed <- subscript2 details "summaryDTO" "maxSpeed" ;;
  totalSteps <- subscript2 details "summaryDTO" "steps" ;;
  totalElevationGain <- subscript2 details "summaryDTO" "elevationGain" ;;
  totalElevationLoss <- subscript2 details "summaryDTO" "elevationLoss" ;;
  minElevation <- subscript2 details "summaryDTO" "minElevation" ;;
  maxElevation <- subscript2 details "summaryDTO" "maxElevation" ;;
  startLatitude <- subscript2 details "summaryDTO" "startLatitude" ;;
  startLongitude <- subscript2 details "summaryDTO" "startLongitude" ;;
  endLatitude <- subscript2 details "summaryDTO" "endLatitude" ;;
  endLongitude <- subscript2 details "summaryDTO" "endLongitude" ;;
  averageHeartRate <- subscript2 details "summaryDTO" "averageHR" ;;
  maxHeartRate <- subscript2 details "summaryDTO" "maxHR" ;;
  averageCadence <- subscript2 details "summaryDTO" "averageRunCadence" ;;
  maxCadence <- subscript2 details "summaryDTO" "maxRunCadence" ;;
  vo2MaxValue <- get_method flat "vO2MaxValue" VNone ;;
  activeKilocalories <- subscript2 details "summaryDTO" "calories" ;;
  bmrKilocalories <- subscript2 details "summaryDTO" "bmrCalories" ;;
  bodyBatteryDelta <- subscript2 details "summaryDTO" "differenceBodyBattery" ;;
  hrZone1Seconds <- get_method flat "hrTimeInZone_1" VNone ;;
  hrZone2Seconds <- get_method flat "hrTimeInZone_2" VNone ;;
  hrZone3Seconds <- get_method flat "hrTimeInZone_3" VNone ;;
  hrZone4Seconds <- get_method flat "hrTimeInZone_4" VNone ;;
  hrZone5Seconds <- get_method flat "hrTimeInZone_5" VNone ;;
  moderateIntensityMinutes <- subscript2 details "summaryDTO" "moderateIntensityMinutes" ;;
  vigorousIntensityMinutes <- subscript2 details "summaryDTO" "vigorousIntensityMinutes" ;;
  hydrationConsumedMl <- subscript2 details "summaryDTO" "waterEstimated" ;;
  splitsJSON <- get_method details "splitSummaries" (VList []) ;;
  Ok [
    ("activityId", activityId);
    ("activityName", activityName);
    ("activityTypeId", activityTypeId);
    ("parentActivityTypeId", parentActivityTypeId);
    ("eventTypeId", eventTypeId);
    ("manualActivity", manualActivity);
    ("favorite", favorite);
    ("personalRecord", personalRecord);
    ("startTimeLocal", start_local);
    ("startTimeGMT", start_gmt);
    ("activityTimestampMs", activityTimestampMs);
    ("timezoneOffset", tz_offset_h);
    ("duration", duration);
    ("movingDuration", movingDuration);
    ("elapsedDuration", elapsedDuration);
    ("distance", distance);
    ("averageSpeed", averageSpeed);
    ("maxSpeed", maxSpeed);
    ("totalSteps", totalSteps);
    ("totalElevationGain", totalElevationGain);
    ("totalElevationLoss", totalElevationLoss);
    ("minElevation", minElevation);
    ("maxElevation", maxElevation);
    ("startLatitude", startLatitude);
    ("startLongitude", startLongitude);
    ("endLatitude", endLatitude);
    ("endLongitude", endLongitude);
    ("averageHeartRate", averageHeartRate);
    ("maxHeartRate", maxHeartRate);
    ("averageCadence", averageCadence);
    ("maxCadence", maxCadence);
    ("vo2MaxValue", vo2MaxValue);
    ("activeKilocalories", activeKilocalories);
    ("bmrKilocalories", bmrKilocalories);
    ("bodyBatteryDelta", bodyBatteryDelta);
    ("hrZone1Seconds", hrZone1Seconds);
    ("hrZone2Seconds", hrZone2Seconds);
    ("hrZone3Seconds", hrZone3Seconds);
    ("hrZone4Seconds", hrZone4Seconds);
    ("hrZone5Seconds", hrZone5Seconds);
    ("moderateIntensityMinutes", moderateIntensityMinutes);
    ("vigorousIntensityMinutes", vigorousIntensityMinutes);
    ("hydrationConsumedMl", hydrationConsumedMl);
    ("splitsJSON", splitsJSON)
  ].

(** ** build_row *)

(** Lines 126-130: the record with the two derived fields set. *)
Definition enrich (data : dict) (stride pace : value) : dict :=
  dict_set (dict_set data "averageStrideLength" stride) "averagePaceMinPerKm" pace.

(** Lines 134-136: the cell of one column. *)
Definition cell (enriched : dict) (col : string) : value :=
  let val := dict_get_default enriched col (VStr "") in
  if is_nested val then VStr (str_slice_to (json_dumps val) MAX_CELL_LENGTH)
  else val.

(** Lines 123-124: the derived fields, from the distance, steps and speed
    of the record ([0] for a missing key). *)
Definition stride_of (data : dict) : result value :=
  compute_stride_length (dict_get_default data "distance" (VInt 0))
                        (dict_get_default data "totalSteps" (VInt 0)).

Definition pace_of (data : dict) : result value :=
  compute_pace_min_per_km (dict_get_default data "averageSpeed" (VInt 0)).

Definition build_row (data : dict) : result (list value) :=
  stride <- stride_of data ;;
  pace <- pace_of data ;;
  let enriched := enrich data stride pace in
  Ok (fold_left (fun row col => (row ++ [cell enriched col])%list) HEADERS []).

End Program.

(** ** The activities directory and the worksheet *)

(** The directory as the script sees it: the names it holds ([None] when the
    directory does not exist), and what [with open(path) as f: json.load(f)]
    gives for a path (the parsed document, or the exception of a missing
    file or of malformed JSON). *)
Record filesystem : Type := {
  fs_names : option (list string);
  fs_load : string -> result value
}.

Definition os_path_isdir (fs : filesystem) : bool :=
  match fs_names fs with Some _ => true | None => false end.

(** [glob.glob(os.path.join(dir, pat))]: the paths of the names of the
    directory that match [pat], in the order the directory lists them. *)
Definition glob (fs : filesystem) (dir pat : string) : list string :=
  match fs_names fs with
  | Some names => map (os_path_join dir) (filter (fnmatch pat) names)
  | None => []
  end.

(** The calls the script makes on gspread, over the state [S] of the remote
    spreadsheet.  Every call may raise. *)
Class Worksheet (S : Type) : Type := {
  connect : S -> result unit;
  worksheet : S -> string -> result unit;
  add_worksheet : S -> string -> result S;
  row_values : S -> nat -> result (list string);
  col_values : S -> nat -> result (list string);
  append_row : S -> list value -> result S;
  append_rows : S -> list (list value) -> result S
}.

Inductive message : Type :=
| MsgPresent (n : nat)
| MsgDirExists (b : bool)
| MsgFlatFiles (files : list string)
| MsgDetailFiles (files : list string)
| MsgCommonIds (ids : list string)
| MsgNoPair
| MsgTraitement (aid : string)
| MsgErreur (aid : string) (e : exn)
| MsgAjout (n : nat)
| MsgAjoutFinal (n : nat)
| MsgTermine (added : nat)
| MsgInattendue (e : exn).

(** What a run does that can be observed from outside. *)
Inductive event : Type :=
| Print (m : message)
| OpenFile (path : string)
| AppendRow (row : list value)
| AppendRows (rows : list (list value))
| Input.

Section Run.

Context {S : Type} {WS : Worksheet S}.
Variable fs : filesystem.

(** A step of the run: from the state of the spreadsheet to a result or an
    exception, the new state, and the events of the step in order. *)
Definition M (A : Type) : Type := S -> result A * S * list event.

Definition ret {A : Type} (a : A) : M A := fun s => (Ok a, s, []).

Definition mbind {A B : Type} (m : M A) (k : A -> M B) : M B :=
  fun s =>
    let '(r, s1, t1) := m s in
    match r with
    | Ok a => let '(r2, s2, t2) := k a s1 in (r2, s2, (t1 ++ t2)%list)
    | Err e => (Err e, s1, t1)
    end.

(** [try: m except Exception as e: h e]. *)
Definition catch {A : Type} (m : M A) (h : exn -> M A) : M A :=
  fun s =>
    let '(r, s1, t1) := m s in
    match r with
    | Ok a => (Ok a, s1, t1)
    | Err e => let '(r2, s2, t2) := h e s1 in (r2, s2, (t1 ++ t2)%list)
    end.

Definition lift {A : Type} (r : result A) : M A := fun s => (r, s, []).

Definition emit (e : event) : M unit := fun s => (Ok tt, s, [e]).

Definition print (m : message) : M unit := emit (Print m).

(** A call that reads the spreadsheet, and one that changes it. *)
Definition query {A : Type} (f : S -> result A) : M A := fun s => (f s, s, []).

Definition update (f : S -> result S) (e : event) : M unit :=
  fun s =>
    match f s with
    | Ok s' => (Ok tt, s', [e])
    | Err x => (Err x, s, [e])
    end.

Definition load_json (path : string) : M value :=
  fun s => (fs_load fs path, s, [OpenFile path]).

End Run.

Declare Scope run_scope.
Delimit Scope run_scope with run.
Notation "x <~ m ;; k" := (mbind m (fun x => k))
  (at level 61, m at next level, right associativity) : run_scope.
Notation "m ;;; k" := (mbind m (fun _ => k))
  (at level 61, right associativity) : run_scope.
Open Scope run_scope.

Section Main.

Context {RT : Runtime} {S : Type} {WS : Worksheet S}.
Variable fs : filesystem.

Definition WORKSHEET_NAME : string := "Global activity details".

Definition load_worksheet : M (S := S) unit :=
  query connect ;;;
  catch (query (fun s => worksheet s WORKSHEET_NAME))
        (fun e =>
           match e with
           | WorksheetNotFound =>
               fun s =>
                 match add_worksheet s WORKSHEET_NAME with
                 | Ok s' => (Ok tt, s', [])
                 | Err x => (Err x, s, [])
                 end
           | _ => lift (Err e)
           end) ;;;
  first <~ query (fun s => row_values s 1) ;;
  match first with
  | [] => update (fun s => append_row s (map VStr HEADERS)) (AppendRow (map VStr HEADERS))
  | _ => ret tt
  end.

(** [set(ws.col_values(1)[1:])]. *)
Definition get_existing_ids : M (S := S) (list string) :=
  col <~ query (fun s => col_values s 1) ;;
  ret (set_of_list (tl col)).

(** Line 175: the text after the last underscore of the base name without
    its extension. *)
Definition get_id (p : string) : result string :=
  match rsplit1 "_" (os_path_splitext_root (os_path_basename p)) with
  | Some (_, after) => Ok after
  | None => Err IndexError
  end.

(** Line 176. *)
Definition common_ids_of (flat_files detail_files : list string) : result (list string) :=
  flat_ids <- mapM get_id flat_files ;;
  detail_ids <- mapM get_id detail_files ;;
  Ok (py_sorted (set_inter (set_of_list flat_ids) (set_of_list detail_ids))).

Definition flat_path (aid : string) : string :=
  os_path_join ACTIVITIES_DIR ("activity_" ++ aid ++ ".json").

Definition details_path (aid : string) : string :=
  os_path_join ACTIVITIES_DIR ("activity_details_" ++ aid ++ ".json").

(** Lines 189-194, the body of the [try]: the row of one activity. *)
Definition process_activity (aid : string) : M (S := S) (list value) :=
  flat <~ load_json fs (flat_path aid) ;;
  details <~ load_json fs (details_path aid) ;;
  merged <~ lift (merge_data details flat) ;;
  lift (build_row merged).

Definition call_append_rows (rows : list (list value)) : M (S := S) unit :=
  update (fun s => append_rows s rows) (AppendRows rows).

(** Lines 185-202: one turn of the loop on the pair [(new_rows, added)]. *)
Definition loop_body (known_ids : list string)
    (st : list (list value) * nat) (aid : string) : M (S := S) (list (list value) * nat) :=
  if str_mem aid known_ids then ret st
  else
    print (MsgTraitement aid) ;;;
    st' <~ catch
             (row <~ process_activity aid ;;
              ret ((fst st ++ [row])%list, Datatypes.S (snd st)))
             (fun e => print (MsgErreur aid e) ;;; ret st) ;;
    if (CHUNK_SIZE <=? List.length (fst st'))%nat then
      call_append_rows (fst st') ;;;
      print (MsgAjout (List.length (fst st'))) ;;;
      ret ([], snd st')
    else ret st'.

Fixpoint for_each {A B : Type} (body : A -> B -> M (S := S) A) (l : list B) (a : A)
    : M (S := S) A :=
  match l with
  | [] => ret a
  | b :: l' => a' <~ body a b ;; for_each body l' a'
  end.

(** Lines 183-206: the loop and the last flush; the number of rows added. *)
Definition upload (known_ids common_ids : list string) : M (S := S) nat :=
  st <~ for_each (loop_body known_ids) common_ids ([], 0%nat) ;;
  match fst st with
  | [] => ret tt
  | _ :: _ =>
      call_append_rows (fst st) ;;;
      print (MsgAjoutFinal (List.length (fst st)))
  end ;;;
  ret (snd st).

(** Lines 163-208, the body of the outer [try]. *)
Definition main_body : M (S := S) unit :=
  load_worksheet ;;;
  known_ids <~ get_existing_ids ;;
  print (MsgPresent (List.length known_ids)) ;;;
  print (MsgDirExists (os_path_isdir fs)) ;;;
  let flat_files := glob fs ACTIVITIES_DIR "activity_*.json" in
  let detail_files := glob fs ACTIVITIES_DIR "activity_details_*.json" in
  print (MsgFlatFiles flat_files) ;;;
  print (MsgDetailFiles detail_files) ;;;
  common_ids <~ lift (common_ids_of flat_files detail_files) ;;
  print (MsgCommonIds common_ids) ;;;
  match common_ids with
  | [] => print MsgNoPair
  | _ :: _ =>
      added <~ upload known_ids common_ids ;;
      print (MsgTermine added)
  end.

Definition main : M (S := S) unit :=
  catch main_body (fun ex => print (MsgInattendue ex)) ;;;
  emit Input.

End Main.

(** ** A reference environment

    One concrete choice of the library functions, of the worksheet and of
    the directory, on which the program can be run: it stands for the Python
    library and for Google Sheets in the examples.  The theorems on the
    program hold for every [Runtime] and every [Worksheet]. *)

From Stdlib Require Import DecimalString.

Definition Z_to_string (z : Z) : string := NilZero.string_of_int (Z.to_int z).

Definition digit_of_ascii (c : ascii) : option Z :=
  let n := Z.of_nat (nat_of_ascii c) in
  if (48 <=? n) && (n <=? 57) then Some (n - 48) else None.

(** The number written by a string of decimal digits. *)
Fixpoint parse_digits (acc : Z) (s : string) : option Z :=
  match s with
  | "" => Some acc
  | String c s' =>
      match digit_of_ascii c with
      | Some d => parse_digits (10 * acc + d) s'
      | None => None
      end
  end.

Definition is_leap (y : Z) : bool :=
  ((y mod 4 =? 0) && negb (y mod 100 =? 0)) || (y mod 400 =? 0).

Definition days_in_month (y m : Z) : Z :=
  if m =? 2 then (if is_leap y then 29 else 28)
  else if (m =? 4) || (m =? 6) || (m =? 9) || (m =? 11) then 30
  else 31.

Definition days_before_year (y : Z) : Z :=
  let p := y - 1 in p * 365 + p / 4 - p / 100 + p / 400.

Definition days_before_month (y m : Z) : Z :=
  fold_right Z.add 0 (map (days_in_month y) (map Z.of_nat (seq 1 (Z.to_nat (m - 1))))).

(** [datetime.fromisoformat] on the form [YYYY-MM-DDTHH:MM:SS], which every
    version of the library reads as a naive datetime (any character may stand
    for the [T]); other forms are refused here. *)
Definition ref_fromisoformat (s : string) : result datetime :=
  let field (a n : nat) := parse_digits 0 (substring a n s) in
  let sep (a : nat) (c : string) := String.eqb (substring a 1 s) c in
  if negb ((String.length s =? 19)%nat && sep 4%nat "-" && sep 7%nat "-"
           && sep 13%nat ":" && sep 16%nat ":")
  then Err ValueError
  else
    match field 0%nat 4%nat, field 5%nat 2%nat, field 8%nat 2%nat,
          field 11%nat 2%nat, field 14%nat 2%nat, field 17%nat 2%nat with
    | Some y, Some mo, Some d, Some h, Some mi, Some sec =>
        if (1 <=? y) && (1 <=? mo) && (mo <=? 12) && (1 <=? d)
           && (d <=? days_in_month y mo) && (h <? 24) && (mi <? 60) && (sec <? 60)
        then
          let ordinal := days_before_year y + days_before_month y mo + d in
          Ok {| dt_micros := (((ordinal - 1) * 86400) + h * 3600 + mi * 60 + sec) * 10 ^ 6;
                dt_utcoffset := None |}
        else Err ValueError
    | _, _, _, _, _, _ => Err ValueError
    end.

(** A float written in full in decimal ([repr] writes the shortest digits
    that read back to the same number). *)
Fixpoint odd_part (fuel : nat) (m e : Z) : Z * Z :=
  match fuel with
  | O => (m, e)
  | Datatypes.S fuel' => if Z.even m && (e <? 0) then odd_part fuel' (m / 2) (e + 1) else (m, e)
  end.

Fixpoint pad_zeros (n : nat) (s : string) : string :=
  match n with
  | O => s
  | Datatypes.S n' => if (String.length s <? n)%nat then pad_zeros n' ("0" ++ s) else s
  end.

Definition float_text (f : float) : string :=
  match Prim2SF f with
  | S754_nan => "NaN"
  | S754_infinity s => if s then "-Infinity" else "Infinity"
  | S754_zero s => if s then "-0.0" else "0.0"
  | S754_finite s m e =>
      let '(m', e') := odd_part 1100 (Zpos m) e in
      (if s then "-" else "") ++
      (if 0 <=? e' then Z_to_string (m' * 2 ^ e') ++ ".0"
       else
         let k := - e' in
         let n := m' * 5 ^ k in
         Z_to_string (n / 10 ^ k) ++ "." ++
         pad_zeros (Z.to_nat k) (Z_to_string (n mod 10 ^ k)))
  end.

Definition hex_digit (n : Z) : string :=
  substring (Z.to_nat n) 1 "0123456789abcdef".

(** A character inside a JSON string, [ensure_ascii=False]: the quote, the
    backslash and the control characters are escaped. *)
Definition json_escape_char (c : ascii) : string :=
  let n := Z.of_nat (nat_of_ascii c) in
  if n =? 34 then "\" ++ String c ""
  else if n =? 92 then "\\"
  else if n =? 10 then "\n"
  else if n =? 13 then "\r"
  else if n =? 9 then "\t"
  else if n =? 8 then "\b"
  else if n =? 12 then "\f"
  else if n <? 32 then "\u00" ++ hex_digit (n / 16) ++ hex_digit (n mod 16)
  else String c "".

Fixpoint json_escape (s : string) : string :=
  match s with
  | "" => ""
  | String c s' => json_escape_char c ++ json_escape s'
  end.

Definition json_string (s : string) : string :=
  String (ascii_of_nat 34) (json_escape s) ++ String (ascii_of_nat 34) "".

(** [json.dumps(v, ensure_ascii=False)] with the default separators. *)
Fixpoint ref_json_dumps (v : value) : string :=
  match v with
  | VNone => "null"
  | VBool b => if b then "true" else "false"
  | VInt z => Z_to_string z
  | VFloat f => float_text f
  | VStr s => json_string s
  | VList l =>
      "[" ++ String.concat ", " (map ref_json_dumps l) ++ "]"
  | VDict d =>
      "{" ++ String.concat ", "
               (map (fun kv => json_string (fst kv) ++ ": " ++ ref_json_dumps (snd kv)) d)
          ++ "}"
  end.

Definition ref_runtime : Runtime :=
  {| json_dumps := ref_json_dumps; fromisoformat := ref_fromisoformat |}.

(** A worksheet kept in memory: whether it exists yet, and its rows as they
    were appended.  A cell reads back as text. *)
Record sheet : Type := {
  sheet_exists : bool;
  sheet_rows : list (list value)
}.

Definition cell_text (v : value) : string :=
  match v with
  | VNone => ""
  | VBool b => if b then "TRUE" else "FALSE"
  | VInt z => Z_to_string z
  | VFloat f => float_text f
  | VStr s => s
  | VList _ | VDict _ => ""
  end.

Definition ref_worksheet : Worksheet sheet :=
  {| connect := fun _ => Ok tt;
     worksheet := fun s _ => if sheet_exists s then Ok tt else Err WorksheetNotFound;
     add_worksheet := fun s _ => Ok {| sheet_exists := true; sheet_rows := sheet_rows s |};
     row_values := fun s n => Ok (map cell_text (nth (n - 1) (sheet_rows s) []));
     col_values := fun s n =>
       Ok (map (fun row => cell_text (nth (n - 1) row VNone)) (sheet_rows s));
     append_row := fun s row =>
       Ok {| sheet_exists := sheet_exists s; sheet_rows := (sheet_rows s ++ [row])%list |};
     append_rows := fun s rows =>
       Ok {| sheet_exists := sheet_exists s; sheet_rows := (sheet_rows s ++ rows)%list |} |}.

(** A directory given by its files: each name with what parsing it gives. *)
Fixpoint lookup_file (files : list (string * result value)) (path : string) : result value :=
  match files with
  | [] => Err (FileNotFoundError path)
  | (name, r) :: files' =>
      if String.eqb (os_path_join ACTIVITIES_DIR name) path then r
      else lookup_file files' path
  end.

Definition directory (files : list (string * result value)) : filesystem :=
  {| fs_names := Some (map fst files); fs_load := lookup_file files |}.

(** The two documents of one activity. *)
Definition sample_details (id : Z) (splits : value) : value :=
  VDict [
    ("activityId", VInt id);
    ("activityName", VStr "Morning Run");
    ("activityTypeDTO", VDict [("typeId", VInt 1); ("parentTypeId", VInt 17)]);
    ("eventTypeDTO", VDict [("typeId", VInt 9)]);
    ("metadataDTO", VDict [("manualActivity", VBool false); ("favorite", VBool false);
                           ("personalRecord", VBool true)]);
    ("summaryDTO", VDict [
       ("startTimeLocal", VStr "2024-05-01T10:00:00");
       ("startTimeGMT", VStr "2024-05-01T08:00:00");
       ("duration", VFloat 2000); ("movingDuration", VFloat 1990);
       ("elapsedDuration", VFloat 2010);
       ("distance", VInt 5000); ("averageSpeed", VFloat 2.5); ("maxSpeed", VFloat 3.5);
       ("steps", VInt 1000);
       ("elevationGain", VInt 40); ("elevationLoss", VInt 38);
       ("minElevation", VInt 100); ("maxElevation", VInt 140);
       ("startLatitude", VFloat 48.5); ("startLongitude", VFloat 2.25);
       ("endLatitude", VFloat 48.5); ("endLongitude", VFloat 2.25);
       ("averageHR", VInt 150); ("maxHR", VInt 175);
       ("averageRunCadence", VInt 170); ("maxRunCadence", VInt 185);
       ("calories", VInt 400); ("bmrCalories", VInt 50);
       ("differenceBodyBattery", VInt (-8));
       ("moderateIntensityMinutes", VInt 5); ("vigorousIntensityMinutes", VInt 28);
       ("waterEstimated", VInt 500)]);
    ("splitSummaries", splits)
  ].

Definition sample_flat : value :=
  VDict [
    ("beginTimestamp", VInt 1714550400000);
    ("vO2MaxValue", VInt 52);
    ("hrTimeInZone_1", VFloat 60); ("hrTimeInZone_2", VFloat 300);
    ("hrTimeInZone_3", VFloat 900); ("hrTimeInZone_4", VFloat 700);
    ("hrTimeInZone_5", VFloat 40)
  ].

Definition sample_splits : value :=
  VList [VDict [("splitType", VStr "RWD_RUN"); ("distance", VInt 5000)]].

(** The two files of the activities numbered [1] to [n]. *)
Definition sample_files (n : nat) : list (string * result value) :=
  flat_map
    (fun i =>
       let id := Z.of_nat i in
       [("activity_" ++ Z_to_string id ++ ".json", Ok sample_flat);
        ("activity_details_" ++ Z_to_string id ++ ".json", Ok (sample_details id sample_splits))])
    (seq 1 n).

Definition empty_sheet : sheet := {| sheet_exists := false; sheet_rows := [] |}.

(** A record whose split summaries serialise to more than
    [MAX_CELL_LENGTH] characters. *)
Definition big_splits : value := VList (repeat (VInt 0) (Z.to_nat 20000)).

Definition big_record : dict :=
  [("activityId", VInt 7); ("distance", VInt 5000); ("totalSteps", VInt 1000);
   ("averageSpeed", VFloat 2.5); ("splitsJSON", big_splits)].

(** The activity 12345 of the reference directory, merged and as a row. *)
Definition sample_merged : dict :=
  Eval vm_compute in
    match @merge_data ref_runtime (sample_details 12345 sample_splits) sample_flat with
    | Ok m => m
    | Err _ => []
    end.

Definition sample_row : list value :=
  Eval vm_compute in
    match @build_row ref_runtime sample_merged with
    | Ok row => row
    | Err _ => []
    end.

(** [obj[k1][k2]...] as an option: [None] when a key of the path is absent
    at its level, or the object found there is not a dict. *)
Fixpoint lookup_path (obj : value) (path : list string) : option value :=
  match path with
  | [] => Some obj
  | k :: path' =>
      match obj with
      | VDict d =>
          match dict_get d k with
          | Some v => lookup_path v path'
          | None => None
          end
      | _ => None
      end
  end.

(** The paths [merge_data] reads in [details] by subscripting. *)
Definition details_paths : list (list string) :=
  [["activityId"]; ["activityName"];
   ["activityTypeDTO"; "typeId"]; ["activityTypeDTO"; "parentTypeId"];
   ["eventTypeDTO"; "typeId"];
   ["metadataDTO"; "manualActivity"]; ["metadataDTO"; "favorite"];
   ["metadataDTO"; "personalRecord"]] ++
  map (fun k => ["summaryDTO"; k])
    ["startTimeLocal"; "startTimeGMT"; "duration"; "movingDuration";
     "elapsedDuration"; "distance"; "averageSpeed"; "maxSpeed"; "steps";
     "elevationGain"; "elevationLoss"; "minElevation"; "maxElevation";
     "startLatitude"; "startLongitude"; "endLatitude"; "endLongitude";
     "averageHR"; "maxHR"; "averageRunCadence"; "maxRunCadence"; "calories";
     "bmrCalories"; "differenceBodyBattery"; "moderateIntensityMinutes";
     "vigorousIntensityMinutes"; "waterEstimated"].

(** The keys [merge_data] reads in [flat] with [.get], each with the field
    of the record it fills. *)
Definition flat_fields : list (string * string) :=
  [("beginTimestamp", "activityTimestampMs"); ("vO2MaxValue", "vo2MaxValue");
   ("hrTimeInZone_1", "hrZone1Seconds"); ("hrTimeInZone_2", "hrZone2Seconds");
   ("hrTimeInZone_3", "hrZone3Seconds"); ("hrTimeInZone_4", "hrZone4Seconds");
   ("hrTimeInZone_5", "hrZone5Seconds")].

(** A details document without its summary, and a directory that holds
    the details file of activity 7 but not its flat file. *)
Definition details_without_summary : value :=
  VDict [("activityId", VInt 7); ("activityName", VStr "Walk")].

Definition details_only_directory : filesystem :=
  directory [("activity_details_7.json", Ok (sample_details 7 sample_splits))].

Definition flat_only_directory : filesystem :=
  directory [("activity_8.json", Ok sample_flat)].

(** ** Reading a run *)

Section Outcome.

Context {RT : Runtime}.
Variable fs : filesystem.

(** What the body of the [try] gives for one activity, and the files it
    opens on the way: the details file only once the flat file is loaded. *)
Definition try_activity (aid : string) : result (list value) :=
  flat <- fs_load fs (flat_path aid) ;;
  details <- fs_load fs (details_path aid) ;;
  merged <- merge_data details flat ;;
  build_row merged.

Definition opened_files (aid : string) : list event :=
  OpenFile (flat_path aid) ::
  (if is_ok (fs_load fs (flat_path aid)) then [OpenFile (details_path aid)] else []).

(** The rows of the activities of [ids] that are not known yet and whose
    files load and merge, in the order of [ids]. *)
Definition new_rows_of (known_ids ids : list string) : list (list value) :=
  flat_map
    (fun aid =>
       if str_mem aid known_ids then []
       else match try_activity aid with
            | Ok row => [row]
            | Err _ => []
            end)
    ids.

End Outcome.

(** The batches a run sent with [append_rows], and the files it opened. *)
Definition appended (t : list event) : list (list (list value)) :=
  flat_map (fun e => match e with AppendRows rows => [rows] | _ => [] end) t.

Definition opened (t : list event) : list string :=
  flat_map (fun e => match e with OpenFile path => [path] | _ => [] end) t.

(** The names of the activities numbered [1] to [n]. *)
Definition sample_ids (n : nat) : list string :=
  map (fun i => Z_to_string (Z.of_nat i)) (seq 1 n).

(** The directory of the activities 1 to 3, where the details file of
    activity 2 is not valid JSON. *)
Definition broken_files : list (string * result value) :=
  [("activity_1.json", Ok sample_flat);
   ("activity_details_1.json", Ok (sample_details 1 sample_splits));
   ("activity_2.json", Ok sample_flat);
   ("activity_details_2.json",
    Err (JSONDecodeError (details_path "2")));
   ("activity_3.json", Ok sample_flat);
   ("activity_details_3.json", Ok (sample_details 3 sample_splits))].

(** The worksheet after a first run on the activities 1 to 3. *)
Definition sheet_after_first_run : sheet :=
  Eval vm_compute in
    snd (fst (@main ref_runtime sheet ref_worksheet (directory (sample_files 3)) empty_sheet)).

(** Activity 12345 merged with a flat document that holds nothing, and its
    row; a record that holds the identifier only. *)
Definition merged_without_flat : dict :=
  Eval vm_compute in
    match @merge_data ref_runtime (sample_details 12345 sample_splits) (VDict []) with
    | Ok m => m
    | Err _ => []
    end.

Definition row_without_flat : list value :=
  Eval vm_compute in
    match @build_row ref_runtime merged_without_flat with
    | Ok row => row
    | Err _ => []
    end.

Definition sparse_record : dict := [("activityId", VInt 7)].

(** The pace of the sample activities: 6.67 as a binary64 number. *)
Definition sample_pace : value := VFloat 0x1.aae147ae147aep+2.

(** The worksheet takes every batch it is sent. *)
Definition accepts_appends {S : Type} {WS : Worksheet S} : Prop :=
  forall (s : S) (rows : list (list value)), exists s', append_rows s rows = Ok s'.

(** Whether the character [c] occurs in [s]. *)
Fixpoint str_contains (c : ascii) (s : string) : bool :=
  match s with
  | "" => false
  | String a s' => Ascii.eqb a c || str_contains c s'
  end.

(** A worksheet that refuses every batch, as a service out of quota does. *)
Definition refusing_worksheet : Worksheet sheet :=
  {| connect := fun _ => Ok tt;
     worksheet := fun s _ => if sheet_exists s then Ok tt else Err WorksheetNotFound;
     add_worksheet := fun s _ => Ok {| sheet_exists := true; sheet_rows := sheet_rows s |};
     row_values := fun s n => Ok (map cell_text (nth (n - 1) (sheet_rows s) []));
     col_values := fun s n =>
       Ok (map (fun row => cell_text (nth (n - 1) row VNone)) (sheet_rows s));
     append_row := fun s row =>
       Ok {| sheet_exists := sheet_exists s; sheet_rows := (sheet_rows s ++ [row])%list |};
     append_rows := fun _ _ => Err (APIError "quota exceeded") |}.

(** A directory that does not exist. *)
Definition missing_directory : filesystem :=
  {| fs_names := None; fs_load := fun path => Err (FileNotFoundError path) |}.

(** The columns [merge_data] fills from [details] by subscripting, each
    with the path it reads. *)
Definition details_columns : list (string * list string) :=
  [("activityId", ["activityId"]);
   ("activityName", ["activityName"]);
   ("activityTypeId", ["activityTypeDTO"; "typeId"]);
   ("parentActivityTypeId", ["activityTypeDTO"; "parentTypeId"]);
   ("eventTypeId", ["eventTypeDTO"; "typeId"]);
   ("manualActivity", ["metadataDTO"; "manualActivity"]);
   ("favorite", ["metadataDTO"; "favorite"]);
   ("personalRecord", ["metadataDTO"; "personalRecord"]);
   ("startTimeLocal", ["summaryDTO"; "startTimeLocal"]);
   ("startTimeGMT", ["summaryDTO"; "startTimeGMT"]);
   ("duration", ["summaryDTO"; "duration"]);
   ("movingDuration", ["summaryDTO"; "movingDuration"]);
   ("elapsedDuration", ["summaryDTO"; "elapsedDuration"]);
   ("distance", ["summaryDTO"; "distance"]);
   ("averageSpeed", ["summaryDTO"; "averageSpeed"]);
   ("maxSpeed", ["summaryDTO"; "maxSpeed"]);
   ("totalSteps", ["summaryDTO"; "steps"]);
   ("totalElevationGain", ["summaryDTO"; "elevationGain"]);
   ("totalElevationLoss", ["summaryDTO"; "elevationLoss"]);
   ("minElevation", ["summaryDTO"; "minElevation"]);
   ("maxElevation", ["summaryDTO"; "maxElevation"]);
   ("startLatitude", ["summaryDTO"; "startLatitude"]);
   ("startLongitude", ["summaryDTO"; "startLongitude"]);
   ("endLatitude", ["summaryDTO"; "endLatitude"]);
   ("endLongitude", ["summaryDTO"; "endLongitude"]);
   ("averageHeartRate", ["summaryDTO"; "averageHR"]);
   ("maxHeartRate", ["summaryDTO"; "maxHR"]);
   ("averageCadence", ["summaryDTO"; "averageRunCadence"]);
   ("maxCadence", ["summaryDTO"; "maxRunCadence"]);
   ("activeKilocalories", ["summaryDTO"; "calories"]);
   ("bmrKilocalories", ["summaryDTO"; "bmrCalories"]);
   ("bodyBatteryDelta", ["summaryDTO"; "differenceBodyBattery"]);
   ("moderateIntensityMinutes", ["summaryDTO"; "moderateIntensityMinutes"]);
   ("vigorousIntensityMinutes", ["summaryDTO"; "vigorousIntensityMinutes"]);
   ("hydrationConsumedMl", ["summaryDTO"; "waterEstimated"])].

(** A spreadsheet that cannot be reached. *)
Definition offline_worksheet : Worksheet sheet :=
  {| connect := fun _ => Err (APIError "no network");
     worksheet := fun _ _ => Err (APIError "no network");
     add_worksheet := fun _ _ => Err (APIError "no network");
     row_values := fun _ _ => Err (APIError "no network");
     col_values := fun _ _ => Err (APIError "no network");
     append_row := fun _ _ => Err (APIError "no network");
     append_rows := fun _ _ => Err (APIError "no network") |}.

(** * Properties *)

(** ** Results *)

Lemma bind_ok_inv {A B : Type} (r : result A) (k : A -> result B) (b : B) :
  bind r k = Ok b -> exists a, r = Ok a /\ k a = Ok b.
Proof.
  destruct r as [a | e]; simpl; intros H; [eauto | discriminate].
Qed.

Lemma bind_err {A B : Type} (r : result A) (k : A -> result B) (e : exn) :
  r = Err e -> bind r k = Err e.
Proof. intros ->. reflexivity. Qed.

Lemma bind_ok_intro {A B : Type} (r : result A) (k : A -> result B) (a : A) (b : B) :
  r = Ok a -> k a = Ok b -> bind r k = Ok b.
Proof. intros -> H. exact H. Qed.

(** Splits a hypothesis [bind r k = Ok b] into the two steps. *)
Ltac bind_inv H :=
  let a := fresh "v" in
  let Ha := fresh "Hv" in
  apply bind_ok_inv in H; destruct H as (a & Ha & H).

(** ** Dictionaries and strings *)

Lemma dict_get_set (d : dict) (k k' : string) (v : value) :
  dict_get (dict_set d k v) k' = if String.eqb k k' then Some v else dict_get d k'.
Proof.
  induction d as [| [k0 v0] d IH]; simpl.
  - destruct (String.eqb k k'); reflexivity.
  - destruct (String.eqb k0 k) eqn:E0; simpl.
    + apply String.eqb_eq in E0. subst k0.
      destruct (String.eqb k k'); reflexivity.
    + destruct (String.eqb k0 k') eqn:E1.
      * apply String.eqb_eq in E1. subst k0.
        rewrite String.eqb_sym, E0. reflexivity.
      * exact IH.
Qed.

Lemma str_take_length (n : nat) (s : string) :
  String.length (str_take n s) = Nat.min n (String.length s).
Proof.
  revert s. induction n as [| n IH]; intros [| c s]; simpl; auto.
Qed.

Lemma str_slice_to_len (s : string) (n : Z) :
  0 <= n -> str_len (str_slice_to s n) = Z.min n (str_len s).
Proof.
  intros Hn. unfold str_len, str_slice_to.
  rewrite str_take_length. lia.
Qed.

(** [s[:n]] is the start of [s]. *)
Lemma str_take_prefix (n : nat) (s : string) :
  String.prefix (str_take n s) s = true.
Proof.
  revert s. induction n as [| n IH]; intros [| c s]; simpl; auto.
  rewrite IH. destruct (ascii_dec c c); [reflexivity | contradiction].
Qed.

Lemma snoc_fold_map {A B : Type} (f : A -> B) (l : list A) (acc : list B) :
  fold_left (fun row a => (row ++ [f a])%list) l acc = (acc ++ map f l)%list.
Proof.
  revert acc. induction l as [| a l IH]; intros acc; simpl.
  - now rewrite app_nil_r.
  - rewrite IH, <- app_assoc. reflexivity.
Qed.

(** ** Derived fields *)

Lemma py_round_scalar (x : value) (n : Z) (r : value) :
  py_round x n = Ok r -> is_nested r = false.
Proof.
  destruct x; simpl; try discriminate.
  - intros [= <-]. reflexivity.
  - intros [= <-]. reflexivity.
  - destruct (float_round f n); simpl; [intros [= <-]; reflexivity | discriminate].
Qed.

Lemma compute_stride_length_scalar (d s r : value) :
  compute_stride_length d s = Ok r -> is_nested r = false.
Proof.
  unfold compute_stride_length. destruct (truthy s).
  - intros H. bind_inv H. eapply py_round_scalar; eauto.
  - intros [= <-]. reflexivity.
Qed.

Lemma compute_pace_min_per_km_scalar (v r : value) :
  compute_pace_min_per_km v = Ok r -> is_nested r = false.
Proof.
  unfold compute_pace_min_per_km. destruct (truthy v).
  - intros H. bind_inv H. bind_inv H. eapply py_round_scalar; eauto.
  - intros [= <-]. reflexivity.
Qed.

(** ** build_row *)

Section BuildRow.

Context {RT : Runtime}.

Lemma build_row_eq (data : dict) :
  build_row data =
    (stride <- stride_of data ;; pace <- pace_of data ;;
     Ok (map (cell (enrich data stride pace)) HEADERS)).
Proof.
  unfold build_row, bind.
  destruct (stride_of data); [| reflexivity].
  destruct (pace_of data); [| reflexivity].
  now rewrite snoc_fold_map.
Qed.

Lemma build_row_inv (data : dict) (row : list value) :
  build_row data = Ok row ->
  exists stride pace,
    stride_of data = Ok stride /\ pace_of data = Ok pace /\
    row = map (cell (enrich data stride pace)) HEADERS.
Proof.
  rewrite build_row_eq. unfold bind.
  destruct (stride_of data) as [stride |]; [| discriminate].
  destruct (pace_of data) as [pace |]; [| discriminate].
  intros [= <-]. eauto.
Qed.

Lemma build_row_ok (data : dict) (stride pace : value) :
  stride_of data = Ok stride -> pace_of data = Ok pace ->
  build_row data = Ok (map (cell (enrich data stride pace)) HEADERS).
Proof.
  intros Hs Hp. rewrite build_row_eq, Hs, Hp. reflexivity.
Qed.

Lemma cell_scalar (enriched : dict) (col : string) :
  is_nested (cell enriched col) = false.
Proof.
  unfold cell. destruct (is_nested (dict_get_default enriched col (VStr ""))) eqn:E; auto.
Qed.

(** The cell of a column in terms of the record: the two derived columns
    hold the computed values, every other column the value of the record
    under its name, or the empty string. *)
Lemma cell_enrich (data : dict) (stride pace : value) (col : string) :
  is_nested stride = false -> is_nested pace = false ->
  cell (enrich data stride pace) col =
    if String.eqb "averagePaceMinPerKm" col then pace
    else if String.eqb "averageStrideLength" col then stride
    else match dict_get data col with
         | Some v =>
             if is_nested v then VStr (str_slice_to (json_dumps v) MAX_CELL_LENGTH) else v
         | None => VStr ""
         end.
Proof.
  intros Hs Hp. unfold cell, enrich, dict_get_default.
  rewrite !dict_get_set.
  destruct (String.eqb "averagePaceMinPerKm" col); [now rewrite Hp |].
  destruct (String.eqb "averageStrideLength" col); [now rewrite Hs |].
  destruct (dict_get data col); reflexivity.
Qed.

Lemma nth_error_map_HEADERS (f : string -> value) (i : nat) (col : string) :
  nth_error HEADERS i = Some col ->
  nth_error (map f HEADERS) i = Some (f col).
Proof.
  intros H. rewrite nth_error_map, H. reflexivity.
Qed.

End BuildRow.

Section BuildRowClaims.

Context {RT : Runtime}.

(** The row of a record whose derived fields can be computed. *)
Lemma build_row_cells (data : dict) (stride pace : value) :
  stride_of data = Ok stride ->
  pace_of data = Ok pace ->
  exists row,
    build_row data = Ok row /\
    List.length row = List.length HEADERS /\
    forall i col,
      nth_error HEADERS i = Some col ->
      nth_error row i =
        Some (if String.eqb "averagePaceMinPerKm" col then pace
              else if String.eqb "averageStrideLength" col then stride
              else match dict_get data col with
                   | Some v =>
                       if is_nested v
                       then VStr (str_slice_to (json_dumps v) MAX_CELL_LENGTH)
                       else v
                   | None => VStr ""
                   end).
Proof.
  intros Hs Hp.
  exists (map (cell (enrich data stride pace)) HEADERS).
  split; [now apply build_row_ok |].
  split; [now rewrite length_map |].
  intros i col Hcol.
  rewrite (nth_error_map_HEADERS _ _ _ Hcol).
  f_equal. apply cell_enrich.
  - eapply compute_stride_length_scalar; exact Hs.
  - eapply compute_pace_min_per_km_scalar; exact Hp.
Qed.

(** C2 (amended): whenever the two derived fields can be computed from the
    record, [build_row] returns a row of 46 cells, one per entry of
    [HEADERS] and in that order: cell [i] is the computed pace or stride on
    the two derived columns, and on any other column the value of the record
    under the name of column [i] (JSON text cut to [MAX_CELL_LENGTH] for a
    list or a dict, the empty string for a missing key). *)
Theorem build_row_length_and_order (data : dict) (stride pace : value) :
  stride_of data = Ok stride ->
  pace_of data = Ok pace ->
  exists row,
    build_row data = Ok row /\
    List.length row = List.length HEADERS /\
    List.length row = 46%nat /\
    forall i col,
      nth_error HEADERS i = Some col ->
      nth_error row i =
        Some (if String.eqb "averagePaceMinPerKm" col then pace
              else if String.eqb "averageStrideLength" col then stride
              else match dict_get data col with
                   | Some v =>
                       if is_nested v
                       then VStr (str_slice_to (json_dumps v) MAX_CELL_LENGTH)
                       else v
                   | None => VStr ""
                   end).
Proof.
  intros Hs Hp.
  destruct (build_row_cells data stride pace Hs Hp) as (row & Hrow & Hlen & Hcells).
  exists row. repeat split; auto.
Qed.

(** C6: a column whose value in the record is a list or a dict gets the
    JSON text of the value cut to [MAX_CELL_LENGTH] characters, and the
    record still gives a row: the cell is the start of the text, the whole
    text when it fits, and exactly [MAX_CELL_LENGTH] characters long when
    the text is longer. *)
Theorem build_row_truncates_nested
    (data : dict) (stride pace : value) (i : nat) (col : string) (v : value) :
  stride_of data = Ok stride ->
  pace_of data = Ok pace ->
  nth_error HEADERS i = Some col ->
  String.eqb "averageStrideLength" col = false ->
  String.eqb "averagePaceMinPerKm" col = false ->
  dict_get data col = Some v ->
  is_nested v = true ->
  exists row text,
    build_row data = Ok row /\
    nth_error row i = Some (VStr text) /\
    text = str_slice_to (json_dumps v) MAX_CELL_LENGTH /\
    String.prefix text (json_dumps v) = true /\
    (MAX_CELL_LENGTH < str_len (json_dumps v) -> str_len text = MAX_CELL_LENGTH) /\
    (str_len (json_dumps v) <= MAX_CELL_LENGTH -> str_len text = str_len (json_dumps v)).
Proof.
  intros Hs Hp Hcol Hns Hnp Hv Hnest.
  destruct (build_row_cells data stride pace Hs Hp) as (row & Hrow & _ & Hcells).
  exists row, (str_slice_to (json_dumps v) MAX_CELL_LENGTH).
  split; [exact Hrow |].
  split.
  { rewrite (Hcells i col Hcol), Hnp, Hns, Hv, Hnest. reflexivity. }
  split; [reflexivity |].
  split; [apply str_take_prefix |].
  assert (Hlen : str_len (str_slice_to (json_dumps v) MAX_CELL_LENGTH)
                 = Z.min MAX_CELL_LENGTH (str_len (json_dumps v))).
  { apply str_slice_to_len. unfold MAX_CELL_LENGTH. lia. }
  split; intros H; rewrite Hlen; lia.
Qed.

(** C10: no cell of a row returned by [build_row] is a list or a dict. *)
Theorem build_row_cells_scalar (data : dict) (row : list value) :
  build_row data = Ok row ->
  Forall (fun v => is_nested v = false) row.
Proof.
  intros H. apply build_row_inv in H.
  destruct H as (stride & pace & _ & _ & ->).
  apply Forall_forall. intros v Hin.
  apply in_map_iff in Hin. destruct Hin as (col & <- & _).
  apply cell_scalar.
Qed.

End BuildRowClaims.

(** ** merge_data *)

Lemma subscript_lookup (obj : value) (k : string) (v : value) :
  subscript obj k = Ok v -> lookup_path obj [k] = Some v.
Proof.
  destruct obj; simpl; try discriminate.
  destruct (dict_get d k); [intros [= ->]; reflexivity | discriminate].
Qed.

Lemma subscript2_lookup (obj : value) (k1 k2 : string) (v : value) :
  subscript2 obj k1 k2 = Ok v -> lookup_path obj [k1; k2] = Some v.
Proof.
  unfold subscript2. intros H. bind_inv H.
  destruct obj; simpl in *; try discriminate.
  destruct (dict_get d k1); [| discriminate].
  injection Hv as ->. apply subscript_lookup in H. exact H.
Qed.

Lemma get_method_inv (obj : value) (k : string) (default v : value) :
  get_method obj k default = Ok v ->
  exists d, obj = VDict d /\ v = dict_get_default d k default.
Proof.
  destruct obj; simpl; try discriminate. intros [= <-]. eauto.
Qed.

Section MergeData.

Context {RT : Runtime}.

(** What a successful merge tells: every subscripted path of [details] is
    there, [flat] is a dict, and the fields read with [.get] hold the value
    found or the default. *)
Lemma merge_data_inv (details flat : value) (m : dict) :
  merge_data details flat = Ok m ->
  (forall p, In p details_paths -> exists v, lookup_path details p = Some v) /\
  (exists fd, flat = VDict fd /\
     forall k col, In (k, col) flat_fields ->
       dict_get m col = Some (dict_get_default fd k VNone)) /\
  (exists d, details = VDict d /\
     dict_get m "splitsJSON" = Some (dict_get_default d "splitSummaries" (VList []))).
Proof.
  intros H. unfold merge_data in H.
  repeat bind_inv H. injection H as <-.
  repeat match goal with
         | Hs : subscript2 _ _ _ = Ok _ |- _ => apply subscript2_lookup in Hs
         | Hs : subscript _ _ = Ok _ |- _ => apply subscript_lookup in Hs
         | Hg : get_method _ _ _ = Ok _ |- _ =>
             apply get_method_inv in Hg; destruct Hg as (? & ? & ?)
         end.
  subst. split; [| split].
  - intros p Hin. unfold details_paths in Hin. simpl in Hin.
    repeat (destruct Hin as [<- | Hin]; [eauto |]). contradiction.
  - repeat match goal with Hd : VDict ?a = VDict ?b |- _ => injection Hd as -> end.
    eexists; split; [reflexivity |].
    intros k col Hin. unfold flat_fields in Hin. simpl in Hin.
    repeat (destruct Hin as [[= <- <-] | Hin]; [reflexivity |]). contradiction.
  - eexists; split; reflexivity.
Qed.

(** Whether the merge succeeds does not depend on what [flat] holds. *)
Lemma merge_data_any_flat (details : value) (fd fd' : dict) (m : dict) :
  merge_data details (VDict fd) = Ok m ->
  exists m', merge_data details (VDict fd') = Ok m'.
Proof.
  intros H. unfold merge_data in H.
  repeat bind_inv H. clear H.
  unfold merge_data. eexists.
  repeat (eapply bind_ok_intro; [first [eassumption | reflexivity] | cbv beta]).
  reflexivity.
Qed.

End MergeData.

Section MergeClaims.

Context {RT : Runtime}.

(** C3 (amended): when one of the paths that [merge_data] reads in
    [details] by subscripting is absent at any level, the merge raises.
    The fields of [flat] are read with [.get]: whatever [flat] holds, the
    merge succeeds as it does on any other flat dict, and a key missing from
    [flat] leaves [None] in the record; a missing [splitSummaries] leaves
    the empty list. *)
Theorem merge_data_missing_path (details flat : value) :
  (forall p,
     In p details_paths -> lookup_path details p = None ->
     exists e, merge_data details flat = Err e) /\
  (forall fd m fd',
     flat = VDict fd -> merge_data details flat = Ok m ->
     exists m',
       merge_data details (VDict fd') = Ok m' /\
       forall k col,
         In (k, col) flat_fields -> dict_get fd' k = None ->
         dict_get m' col = Some VNone) /\
  (forall d m,
     details = VDict d -> merge_data details flat = Ok m ->
     dict_get d "splitSummaries" = None ->
     dict_get m "splitsJSON" = Some (VList [])).
Proof.
  split; [| split].
  - intros p Hin Hnone.
    destruct (merge_data details flat) as [m | e] eqn:E; [| eauto].
    apply merge_data_inv in E. destruct E as (Hpaths & _).
    destruct (Hpaths p Hin) as (v & Hv). congruence.
  - intros fd m fd' -> Hm.
    destruct (merge_data_any_flat details fd fd' m Hm) as (m' & Hm').
    exists m'. split; [exact Hm' |].
    intros k col Hin Hnone.
    apply merge_data_inv in Hm'. destruct Hm' as (_ & (fd0 & Hfd & Hget) & _).
    injection Hfd as <-.
    rewrite (Hget k col Hin). unfold dict_get_default. now rewrite Hnone.
  - intros d m -> Hm Hnone.
    apply merge_data_inv in Hm. destruct Hm as (_ & _ & (d0 & Hd & Hget)).
    injection Hd as <-.
    rewrite Hget. unfold dict_get_default. now rewrite Hnone.
Qed.

Lemma flat_fields_not_derived (k col : string) :
  In (k, col) flat_fields ->
  String.eqb "averagePaceMinPerKm" col = false /\
  String.eqb "averageStrideLength" col = false.
Proof.
  unfold flat_fields. simpl. intros Hin.
  repeat (destruct Hin as [[= <- <-] | Hin]; [split; reflexivity |]).
  contradiction.
Qed.

(** The cells of a row that [build_row] returned. *)
Lemma build_row_cells_inv (data : dict) (row : list value) :
  build_row data = Ok row ->
  exists stride pace,
    stride_of data = Ok stride /\ pace_of data = Ok pace /\
    List.length row = List.length HEADERS /\
    forall i col,
      nth_error HEADERS i = Some col ->
      nth_error row i =
        Some (if String.eqb "averagePaceMinPerKm" col then pace
              else if String.eqb "averageStrideLength" col then stride
              else match dict_get data col with
                   | Some v =>
                       if is_nested v
                       then VStr (str_slice_to (json_dumps v) MAX_CELL_LENGTH)
                       else v
                   | None => VStr ""
                   end).
Proof.
  intros H. destruct (build_row_inv data row H) as (stride & pace & Hs & Hp & _).
  destruct (build_row_cells data stride pace Hs Hp) as (row' & Hrow' & Hlen & Hcells).
  rewrite H in Hrow'. injection Hrow' as <-.
  exists stride, pace. auto.
Qed.

(** C4 (amended): a row returned by [build_row] has one cell per entry of
    [HEADERS]; a column that is not one of the two derived ones and whose
    name is missing from the record gets the empty string.  Upstream,
    [merge_data] always fills the record: a key missing from [flat] gives
    the cell [None], and a missing [splitSummaries] gives the JSON text of
    the empty list. *)
Theorem build_row_absent_fields :
  (forall data row,
     build_row data = Ok row ->
     List.length row = List.length HEADERS /\
     forall i col,
       nth_error HEADERS i = Some col ->
       String.eqb "averagePaceMinPerKm" col = false ->
       String.eqb "averageStrideLength" col = false ->
       dict_get data col = None ->
       nth_error row i = Some (VStr "")) /\
  (forall details fd m row k col i,
     merge_data details (VDict fd) = Ok m ->
     build_row m = Ok row ->
     In (k, col) flat_fields ->
     nth_error HEADERS i = Some col ->
     dict_get fd k = None ->
     nth_error row i = Some VNone) /\
  (forall d flat m row,
     merge_data (VDict d) flat = Ok m ->
     build_row m = Ok row ->
     dict_get d "splitSummaries" = None ->
     nth_error row 45 =
       Some (VStr (str_slice_to (json_dumps (VList [])) MAX_CELL_LENGTH))).
Proof.
  split; [| split].
  - intros data row H.
    destruct (build_row_cells_inv data row H) as (stride & pace & _ & _ & Hlen & Hcells).
    split; [exact Hlen |].
    intros i col Hcol Hp Hs Hnone.
    rewrite (Hcells i col Hcol), Hp, Hs, Hnone. reflexivity.
  - intros details fd m row k col i Hm Hrow Hin Hcol Hnone.
    destruct (build_row_cells_inv m row Hrow) as (stride & pace & _ & _ & _ & Hcells).
    destruct (flat_fields_not_derived k col Hin) as (Hp & Hs).
    apply merge_data_inv in Hm. destruct Hm as (_ & (fd0 & Hfd & Hget) & _).
    injection Hfd as <-.
    rewrite (Hcells i col Hcol), Hp, Hs, (Hget k col Hin).
    unfold dict_get_default. rewrite Hnone. reflexivity.
  - intros d flat m row Hm Hrow Hnone.
    destruct (build_row_cells_inv m row Hrow) as (stride & pace & _ & _ & _ & Hcells).
    apply merge_data_inv in Hm. destruct Hm as (_ & _ & (d0 & Hd & Hget)).
    injection Hd as <-.
    rewrite (Hcells 45%nat "splitsJSON" eq_refl), Hget.
    unfold dict_get_default. rewrite Hnone. reflexivity.
Qed.

End MergeClaims.

(** ** Derived fields *)

(** C5: on a step count that is a number, the stride is the empty string
    when the count is zero and [round(d / s, 3)] otherwise; on a speed that
    is a number, the pace is the empty string when the speed is zero and
    [round((1000 / v) / 60, 2)] otherwise; [build_row] takes a missing or
    [None] step count or speed for zero, so the cell is the empty string. *)
Theorem derived_fields (d : value) :
  (forall z : Z,
     compute_stride_length d (VInt z) =
       if z =? 0 then Ok (VStr "")
       else (q <- py_truediv d (VInt z) ;; py_round q 3)) /\
  (forall f : float,
     compute_stride_length d (VFloat f) =
       if PrimFloat.eqb f 0%float then Ok (VStr "")
       else (q <- py_truediv d (VFloat f) ;; py_round q 3)) /\
  (forall z : Z,
     compute_pace_min_per_km (VInt z) =
       if z =? 0 then Ok (VStr "")
       else (p <- py_truediv (VInt 1000) (VInt z) ;;
             q <- py_truediv p (VInt 60) ;; py_round q 2)) /\
  (forall f : float,
     compute_pace_min_per_km (VFloat f) =
       if PrimFloat.eqb f 0%float then Ok (VStr "")
       else (p <- py_truediv (VInt 1000) (VFloat f) ;;
             q <- py_truediv p (VInt 60) ;; py_round q 2)) /\
  compute_stride_length d VNone = Ok (VStr "") /\
  compute_pace_min_per_km VNone = Ok (VStr "") /\
  (forall data : dict,
     dict_get data "totalSteps" = None -> stride_of data = Ok (VStr "")) /\
  (forall data : dict,
     dict_get data "averageSpeed" = None -> pace_of data = Ok (VStr "")).
Proof.
  repeat split.
  - intros z. unfold compute_stride_length. simpl. now destruct (z =? 0).
  - intros f. unfold compute_stride_length. simpl.
    now destruct (PrimFloat.eqb f 0).
  - intros z. unfold compute_pace_min_per_km. simpl. now destruct (z =? 0).
  - intros f. unfold compute_pace_min_per_km. simpl.
    now destruct (PrimFloat.eqb f 0).
  - intros data H. unfold stride_of, dict_get_default. rewrite H. reflexivity.
  - intros data H. unfold pace_of, dict_get_default. rewrite H. reflexivity.
Qed.

(** ** The upload loop *)

Lemma appended_app (t1 t2 : list event) :
  appended (t1 ++ t2) = (appended t1 ++ appended t2)%list.
Proof. apply flat_map_app. Qed.

Lemma opened_app (t1 t2 : list event) :
  opened (t1 ++ t2) = (opened t1 ++ opened t2)%list.
Proof. apply flat_map_app. Qed.

Section Loop.

Context {RT : Runtime} {S : Type} {WS : Worksheet S}.
Variable fs : filesystem.
Variable known_ids : list string.

Lemma process_activity_eq (aid : string) (s : S) :
  process_activity fs aid s = (try_activity fs aid, s, opened_files fs aid).
Proof.
  unfold process_activity, try_activity, opened_files, mbind, load_json, lift.
  destruct (fs_load fs (flat_path aid)) as [flat | e]; simpl; [| reflexivity].
  destruct (fs_load fs (details_path aid)) as [details | e]; simpl; [| reflexivity].
  destruct (merge_data details flat) as [m | e]; simpl; [| reflexivity].
  destruct (build_row m); reflexivity.
Qed.

(** One turn of the loop on a known identifier: nothing happens. *)
Lemma loop_body_known (st : list (list value) * nat) (aid : string) (s : S) :
  str_mem aid known_ids = true ->
  loop_body fs known_ids st aid s = (Ok st, s, []).
Proof.
  intros H. unfold loop_body. rewrite H. reflexivity.
Qed.

(** One turn on a new identifier whose files do not give a row: the error
    is printed and the buffer and the count are as before. *)
Lemma loop_body_error (buf : list (list value)) (added : nat) (aid : string)
    (e : exn) (s : S) :
  str_mem aid known_ids = false ->
  try_activity fs aid = Err e ->
  (List.length buf < CHUNK_SIZE)%nat ->
  loop_body fs known_ids (buf, added) aid s =
    (Ok (buf, added), s,
     (Print (MsgTraitement aid) :: opened_files fs aid ++ [Print (MsgErreur aid e)])%list).
Proof.
  intros Hnew Herr Hlen. unfold loop_body. rewrite Hnew.
  unfold mbind, catch, print, emit, ret.
  rewrite process_activity_eq, Herr. cbn [fst snd].
  apply Nat.leb_gt in Hlen. rewrite Hlen.
  simpl. now rewrite !app_nil_r.
Qed.

(** One turn on a new identifier that gives a row: the row joins the
    buffer, which is sent and emptied when it reaches [CHUNK_SIZE]. *)
Lemma loop_body_row (buf : list (list value)) (added : nat) (aid : string)
    (row : list value) (s : S) :
  str_mem aid known_ids = false ->
  try_activity fs aid = Ok row ->
  loop_body fs known_ids (buf, added) aid s =
    if (CHUNK_SIZE <=? List.length (buf ++ [row]))%nat then
      match append_rows s (buf ++ [row])%list with
      | Ok s' =>
          (Ok ([], Datatypes.S added), s',
           (Print (MsgTraitement aid) :: opened_files fs aid ++
            [AppendRows (buf ++ [row]); Print (MsgAjout (List.length (buf ++ [row])))])%list)
      | Err x =>
          (Err x, s,
           (Print (MsgTraitement aid) :: opened_files fs aid ++
            [AppendRows (buf ++ [row])])%list)
      end
    else
      (Ok ((buf ++ [row])%list, Datatypes.S added), s,
       (Print (MsgTraitement aid) :: opened_files fs aid)%list).
Proof.
  intros Hnew Hrow. unfold loop_body. rewrite Hnew.
  unfold mbind, catch, print, emit, ret, call_append_rows, update.
  rewrite process_activity_eq, Hrow. cbn [fst snd].
  destruct (CHUNK_SIZE <=? List.length (buf ++ [row]))%nat.
  - destruct (append_rows s (buf ++ [row])%list); simpl;
      rewrite ?app_nil_r, <- ?app_assoc; reflexivity.
  - simpl. now rewrite !app_nil_r.
Qed.

End Loop.

Lemma appended_print (m : message) (t : list event) :
  appended (Print m :: t) = appended t.
Proof. reflexivity. Qed.

Lemma appended_opened_files {RT : Runtime} (fs : filesystem) (aid : string) :
  appended (opened_files fs aid) = [].
Proof.
  unfold opened_files. destruct (is_ok (fs_load fs (flat_path aid))); reflexivity.
Qed.

Lemma full_batches_length {A : Type} (c : nat) (bs : list (list A)) :
  Forall (fun b => List.length b = c) bs ->
  List.length (List.concat bs) = (c * List.length bs)%nat /\
  map (@List.length A) bs = repeat c (List.length bs).
Proof.
  induction 1 as [| b bs Hb _ [IH1 IH2]]; simpl.
  - split; [lia | reflexivity].
  - rewrite length_app, IH1, IH2, Hb. split; [lia | reflexivity].
Qed.

Section LoopSpec.

Context {RT : Runtime} {S : Type} {WS : Worksheet S}.
Variable fs : filesystem.
Variable known_ids : list string.
Hypothesis Haccepts : accepts_appends (S := S).

(** The loop from a buffer shorter than [CHUNK_SIZE]: it ends without an
    exception; every batch sent holds [CHUNK_SIZE] rows; the batches and the
    buffer left hold, in order, the buffer it started from and the rows of
    the new activities; every failure is printed. *)
Lemma for_each_loop_body (ids : list string) :
  forall (buf : list (list value)) (added : nat) (s : S),
    (List.length buf < CHUNK_SIZE)%nat ->
    exists s' t buf',
      for_each (loop_body fs known_ids) ids (buf, added) s =
        (Ok (buf', (added + List.length (new_rows_of fs known_ids ids))%nat), s', t) /\
      (List.length buf' < CHUNK_SIZE)%nat /\
      Forall (fun b => List.length b = CHUNK_SIZE) (appended t) /\
      (List.concat (appended t) ++ buf' = buf ++ new_rows_of fs known_ids ids)%list /\
      (forall aid e,
         In aid ids -> str_mem aid known_ids = false ->
         try_activity fs aid = Err e -> In (Print (MsgErreur aid e)) t).
Proof.
  induction ids as [| aid ids IH]; intros buf added s Hlen.
  - exists s, [], buf. simpl. unfold ret.
    rewrite Nat.add_0_r, app_nil_r. repeat split; auto.
  - cbn [for_each]. unfold mbind.
    unfold new_rows_of. cbn [flat_map]. fold (new_rows_of fs known_ids ids).
    destruct (str_mem aid known_ids) eqn:Hknown.
    + rewrite (loop_body_known fs known_ids _ aid s Hknown).
      destruct (IH buf added s Hlen) as (s' & t & buf' & Hrun & Hlen' & Hfull & Hcat & Herr).
      rewrite Hrun. exists s', t, buf'. cbn [app].
      repeat split; auto.
      intros a e [<- | Hin] Hnew Hfail; [congruence | eauto].
    + destruct (try_activity fs aid) as [row | e0] eqn:Htry.
      * replace (added + List.length ([row] ++ new_rows_of fs known_ids ids))%nat
          with (Datatypes.S added + List.length (new_rows_of fs known_ids ids))%nat
          by (cbn [app List.length]; lia).
        rewrite (loop_body_row fs known_ids buf added aid row s Hknown Htry).
        destruct (CHUNK_SIZE <=? List.length (buf ++ [row]))%nat eqn:Hfull_now.
        -- destruct (Haccepts s (buf ++ [row])%list) as (s1 & Happ). rewrite Happ.
           assert (H0 : (List.length (@nil (list value)) < CHUNK_SIZE)%nat)
             by (unfold CHUNK_SIZE; simpl; lia).
           destruct (IH [] (Datatypes.S added) s1 H0)
             as (s' & t & buf' & Hrun & Hlen' & Hfull & Hcat & Herr).
           rewrite Hrun. eexists s', _, buf'.
           split; [reflexivity |].
           split; [exact Hlen' |].
           apply Nat.leb_le in Hfull_now. rewrite length_app in Hfull_now.
           simpl in Hfull_now.
           split; [| split].
           ++ rewrite appended_app, appended_print, ?appended_app, appended_opened_files. simpl.
              constructor; [rewrite length_app; simpl; lia | exact Hfull].
           ++ rewrite appended_app, appended_print, ?appended_app, appended_opened_files. simpl.
              simpl in Hcat. rewrite <- !app_assoc, Hcat. reflexivity.
           ++ intros a e [<- | Hin] Hnew Hfail; [congruence |].
              apply in_or_app. right. eauto.
        -- apply Nat.leb_gt in Hfull_now.
           destruct (IH (buf ++ [row])%list (Datatypes.S added) s Hfull_now)
             as (s' & t & buf' & Hrun & Hlen' & Hfull & Hcat & Herr).
           rewrite Hrun. eexists s', _, buf'.
           split; [reflexivity |].
           split; [exact Hlen' |].
           split; [| split].
           ++ rewrite appended_app, appended_print, ?appended_app, appended_opened_files. exact Hfull.
           ++ rewrite appended_app, appended_print, ?appended_app, appended_opened_files. cbn [app].
              rewrite Hcat, <- app_assoc. reflexivity.
           ++ intros a e [<- | Hin] Hnew Hfail; [congruence |].
              apply in_or_app. right. eauto.
      * rewrite (loop_body_error fs known_ids buf added aid e0 s Hknown Htry Hlen).
        destruct (IH buf added s Hlen)
          as (s' & t & buf' & Hrun & Hlen' & Hfull & Hcat & Herr).
        rewrite Hrun. eexists s', _, buf'.
        split; [reflexivity |].
        split; [exact Hlen' |].
        split; [| split].
        -- rewrite appended_app, appended_print, ?appended_app, appended_opened_files. exact Hfull.
        -- rewrite appended_app, appended_print, ?appended_app, appended_opened_files. exact Hcat.
        -- intros a e [<- | Hin] Hnew Hfail.
           ++ rewrite Htry in Hfail. injection Hfail as <-.
              right. apply in_or_app. left. apply in_or_app. right. now left.
           ++ apply in_or_app. right. eauto.
Qed.

End LoopSpec.

Section Upload.

Context {RT : Runtime} {S : Type} {WS : Worksheet S}.
Variable fs : filesystem.
Variable known_ids : list string.

(** The loop and the last flush on a worksheet that takes every batch. *)
Lemma upload_spec (ids : list string) (s : S) :
  accepts_appends (S := S) ->
  let rows := new_rows_of fs known_ids ids in
  let n := List.length rows in
  exists s' t,
    upload fs known_ids ids s = (Ok n, s', t) /\
    List.concat (appended t) = rows /\
    map (@List.length (list value)) (appended t) =
      (repeat CHUNK_SIZE (n / CHUNK_SIZE) ++
       (if (n mod CHUNK_SIZE =? 0)%nat then [] else [(n mod CHUNK_SIZE)%nat]))%list /\
    (forall aid e,
       In aid ids -> str_mem aid known_ids = false ->
       try_activity fs aid = Err e -> In (Print (MsgErreur aid e)) t).
Proof.
  intros Haccepts rows n.
  assert (H0 : (List.length (@nil (list value)) < CHUNK_SIZE)%nat)
    by (unfold CHUNK_SIZE; simpl; lia).
  destruct (for_each_loop_body fs known_ids Haccepts ids [] 0%nat s H0)
    as (s1 & t & buf & Hrun & Hlen & Hfull & Hcat & Herr).
  cbn [app Nat.add] in Hrun, Hcat. fold rows in Hrun, Hcat. fold n in Hrun.
  destruct (full_batches_length CHUNK_SIZE (appended t) Hfull) as (Hsize & Hsizes).
  assert (Hn : n = (CHUNK_SIZE * List.length (appended t) + List.length buf)%nat).
  { unfold n. rewrite <- Hcat, length_app, Hsize. reflexivity. }
  assert (Hdiv : (n / CHUNK_SIZE)%nat = List.length (appended t)).
  { symmetry. apply (Nat.div_unique n CHUNK_SIZE _ (List.length buf)); [exact Hlen | exact Hn]. }
  assert (Hmod : (n mod CHUNK_SIZE)%nat = List.length buf).
  { symmetry. apply (Nat.mod_unique n CHUNK_SIZE (List.length (appended t))); [exact Hlen | exact Hn]. }
  unfold upload, mbind. rewrite Hrun. cbn [fst snd].
  destruct buf as [| row buf].
  - exists s1, t. unfold ret. cbn [app]. rewrite !app_nil_r.
    split; [reflexivity |].
    rewrite app_nil_r in Hcat.
    split; [exact Hcat |].
    split; [| exact Herr].
    rewrite Hsizes, Hdiv, Hmod. simpl. now rewrite app_nil_r.
  - destruct (Haccepts s1 (row :: buf)) as (s2 & Happ).
    unfold call_append_rows, update, print, emit, ret. rewrite Happ.
    eexists s2, _. split; [reflexivity |].
    cbn [app]. rewrite ?app_nil_r, appended_app. cbn [appended flat_map app].
    split; [| split].
    + rewrite concat_app. cbn [List.concat]. now rewrite app_nil_r.
    + rewrite map_app, Hsizes, Hdiv, Hmod. reflexivity.
    + intros aid e Hin Hnew Hfail. apply in_or_app. left. eauto.
Qed.

(** On identifiers that are all known the run does nothing at all. *)
Lemma upload_all_known (ids : list string) (s : S) :
  forallb (fun aid => str_mem aid known_ids) ids = true ->
  upload fs known_ids ids s = (Ok 0%nat, s, []).
Proof.
  intros Hall.
  assert (Hloop : forall st, for_each (loop_body fs known_ids) ids st s = (Ok st, s, [])).
  { induction ids as [| aid ids' IH]; intros st; [reflexivity |].
    simpl in Hall. apply andb_prop in Hall. destruct Hall as (Hk & Hall).
    cbn [for_each]. unfold mbind. rewrite (loop_body_known fs known_ids st aid s Hk).
    now rewrite (IH Hall). }
  unfold upload, mbind. rewrite Hloop. reflexivity.
Qed.

End Upload.

Lemma str_mem_In (x : string) (l : list string) :
  str_mem x l = true <-> In x l.
Proof.
  unfold str_mem. rewrite existsb_exists. split.
  - intros (y & Hin & Heq). apply String.eqb_eq in Heq. now subst.
  - intros Hin. exists x. split; [exact Hin | apply String.eqb_refl].
Qed.

Lemma In_set_of_list (x : string) (l : list string) :
  In x (set_of_list l) <-> In x l.
Proof.
  induction l as [| y l IH]; simpl; [tauto |].
  destruct (str_mem y l) eqn:E.
  - rewrite IH. split; [tauto |]. intros [<- | H]; [| exact H].
    now apply str_mem_In.
  - simpl. rewrite IH. tauto.
Qed.

Lemma str_mem_set_of_list (x : string) (l : list string) :
  str_mem x (set_of_list l) = str_mem x l.
Proof.
  destruct (str_mem x l) eqn:E.
  - apply str_mem_In. apply In_set_of_list. now apply str_mem_In.
  - destruct (str_mem x (set_of_list l)) eqn:E'; [| reflexivity].
    apply (proj1 (str_mem_In x (set_of_list l))) in E'.
    apply (proj1 (In_set_of_list x l)) in E'.
    apply (proj2 (str_mem_In x l)) in E'. congruence.
Qed.

Section RunClaims.

Context {RT : Runtime} {S : Type} {WS : Worksheet S}.
Variable fs : filesystem.

Lemma new_rows_of_all (known_ids ids : list string) :
  forallb (fun aid => negb (str_mem aid known_ids)) ids = true ->
  forallb (fun aid => is_ok (try_activity fs aid)) ids = true ->
  List.length (new_rows_of fs known_ids ids) = List.length ids.
Proof.
  induction ids as [| aid ids IH]; simpl; intros Hnew Hok; [reflexivity |].
  apply andb_prop in Hnew. destruct Hnew as (Hnew & Hnew').
  apply andb_prop in Hok. destruct Hok as (Hok & Hok').
  apply negb_true_iff in Hnew. rewrite Hnew.
  destruct (try_activity fs aid); [| discriminate].
  simpl. now rewrite IH.
Qed.

(** C7: when the worksheet takes every batch and every identifier of the
    loop is new and gives a row, the run sends the rows in order in batches
    of [CHUNK_SIZE] rows, followed by one batch with the rows left over when
    there are some; with 250 identifiers the batches hold 100, 100 and 50
    rows. *)
Theorem upload_flushes_in_chunks (known_ids ids : list string) (s : S) :
  accepts_appends (S := S) ->
  forallb (fun aid => negb (str_mem aid known_ids)) ids = true ->
  forallb (fun aid => is_ok (try_activity fs aid)) ids = true ->
  exists s' t,
    upload fs known_ids ids s = (Ok (List.length ids), s', t) /\
    List.concat (appended t) = new_rows_of fs known_ids ids /\
    map (@List.length (list value)) (appended t) =
      (repeat CHUNK_SIZE (List.length ids / CHUNK_SIZE) ++
       (if (List.length ids mod CHUNK_SIZE =? 0)%nat then []
        else [(List.length ids mod CHUNK_SIZE)%nat]))%list /\
    (List.length ids = 250%nat ->
     map (@List.length (list value)) (appended t) = [100; 100; 50]%nat).
Proof.
  intros Haccepts Hnew Hok.
  destruct (upload_spec fs known_ids ids s Haccepts) as (s' & t & Hrun & Hcat & Hsizes & _).
  rewrite (new_rows_of_all known_ids ids Hnew Hok) in Hrun, Hsizes.
  exists s', t. repeat split; auto.
  intros H250. rewrite Hsizes, H250. reflexivity.
Qed.

(** C9: on a worksheet that takes every batch, the run ends without an
    exception whatever the files hold: the rows sent are those of the new
    identifiers whose files load and merge, in order, an identifier whose
    files raise [e] has [e] printed with its name, and the turn of the loop
    on such an identifier leaves the buffer and the count as they were. *)
Theorem record_failure_is_isolated (known_ids ids : list string) (s : S) :
  accepts_appends (S := S) ->
  (exists s' t,
     upload fs known_ids ids s =
       (Ok (List.length (new_rows_of fs known_ids ids)), s', t) /\
     List.concat (appended t) = new_rows_of fs known_ids ids /\
     forall aid e,
       In aid ids -> str_mem aid known_ids = false ->
       try_activity fs aid = Err e -> In (Print (MsgErreur aid e)) t) /\
  (forall buf added aid e s0,
     str_mem aid known_ids = false ->
     try_activity fs aid = Err e ->
     (List.length buf < CHUNK_SIZE)%nat ->
     loop_body fs known_ids (buf, added) aid s0 =
       (Ok (buf, added), s0,
        (Print (MsgTraitement aid) :: opened_files fs aid ++
         [Print (MsgErreur aid e)])%list)).
Proof.
  intros Haccepts. split.
  - destruct (upload_spec fs known_ids ids s Haccepts) as (s' & t & Hrun & Hcat & _ & Herr).
    exists s', t. auto.
  - intros buf added aid e s0. apply loop_body_error.
Qed.

Lemma mbind_ok {A B : Type} (m : M (S := S) A) (k : A -> M (S := S) B)
    (s s1 : S) (a : A) (t1 : list event) :
  m s = (Ok a, s1, t1) ->
  mbind m k s = (let '(r2, s2, t2) := k a s1 in (r2, s2, (t1 ++ t2)%list)).
Proof. intros H. unfold mbind. rewrite H. reflexivity. Qed.

(** The worksheet is there with its header row: it is opened as it is. *)
Lemma load_worksheet_ready (s : S) (cell1 : string) (row1 : list string) :
  connect s = Ok tt ->
  worksheet s WORKSHEET_NAME = Ok tt ->
  row_values s 1 = Ok (cell1 :: row1) ->
  load_worksheet s = (Ok tt, s, []).
Proof.
  intros Hc Hw Hr. unfold load_worksheet, mbind, catch, query, ret.
  rewrite Hc, Hw, Hr. reflexivity.
Qed.

Lemma get_existing_ids_eq (s : S) (col : list string) :
  col_values s 1 = Ok col ->
  get_existing_ids s = (Ok (set_of_list (tl col)), s, []).
Proof.
  intros H. unfold get_existing_ids, mbind, query, ret. rewrite H. reflexivity.
Qed.

(** The run on a worksheet that knows every common identifier. *)
Lemma main_body_all_known
    (s : S) (cell1 : string) (row1 : list string) (col ids : list string) :
  connect s = Ok tt ->
  worksheet s WORKSHEET_NAME = Ok tt ->
  row_values s 1 = Ok (cell1 :: row1) ->
  col_values s 1 = Ok col ->
  common_ids_of (glob fs ACTIVITIES_DIR "activity_*.json")
                (glob fs ACTIVITIES_DIR "activity_details_*.json") = Ok ids ->
  forallb (fun aid => str_mem aid (set_of_list (tl col))) ids = true ->
  exists t, main_body fs s = (Ok tt, s, t) /\ appended t = [] /\ opened t = [].
Proof.
  intros Hc Hw Hr Hcol Hids Hall. unfold main_body.
  rewrite (mbind_ok _ _ _ _ _ _ (load_worksheet_ready s cell1 row1 Hc Hw Hr)).
  rewrite (mbind_ok _ _ _ _ _ _ (get_existing_ids_eq s col Hcol)).
  set (known := set_of_list (tl col)) in *.
  unfold print, emit.
  repeat (rewrite (mbind_ok _ _ s s tt _ eq_refl)).
  assert (Hlift : lift (S := S) (common_ids_of (glob fs ACTIVITIES_DIR "activity_*.json")
                          (glob fs ACTIVITIES_DIR "activity_details_*.json")) s
                  = (Ok ids, s, [])) by (unfold lift; now rewrite Hids).
  rewrite (mbind_ok _ _ _ _ _ _ Hlift).
  rewrite (mbind_ok _ _ s s tt _ eq_refl).
  destruct ids as [| aid ids'].
  - eexists. split; [reflexivity |]. split; reflexivity.
  - rewrite (mbind_ok _ _ _ _ _ _ (upload_all_known fs known (aid :: ids') s Hall)).
    eexists. split; [reflexivity |]. split; reflexivity.
Qed.

(** C8: a run on a worksheet that is there with its header row, and whose
    first column holds, below the header, every identifier common to the
    two kinds of files, opens no file, sends no batch and leaves the
    worksheet as it is; each turn of the loop on an identifier of the first
    column does nothing. *)
Theorem known_ids_are_skipped
    (s : S) (cell1 : string) (row1 : list string) (header : string)
    (col ids : list string) :
  connect s = Ok tt ->
  worksheet s WORKSHEET_NAME = Ok tt ->
  row_values s 1 = Ok (cell1 :: row1) ->
  col_values s 1 = Ok (header :: col) ->
  common_ids_of (glob fs ACTIVITIES_DIR "activity_*.json")
                (glob fs ACTIVITIES_DIR "activity_details_*.json") = Ok ids ->
  forallb (fun aid => str_mem aid col) ids = true ->
  (exists t, main fs s = (Ok tt, s, t) /\ appended t = [] /\ opened t = []) /\
  (forall st aid s0,
     In aid ids ->
     loop_body fs (set_of_list col) st aid s0 = (Ok st, s0, [])).
Proof.
  intros Hc Hw Hr Hcol Hids Hall.
  assert (Hall' : forallb (fun aid => str_mem aid (set_of_list col)) ids = true).
  { rewrite forallb_forall in *. intros aid Hin.
    rewrite str_mem_set_of_list. auto. }
  split.
  - destruct (main_body_all_known s cell1 row1 (header :: col) ids Hc Hw Hr Hcol Hids Hall')
      as (t & Hrun & Happ & Hopen).
    unfold main, mbind, catch, emit. rewrite Hrun.
    eexists. split; [reflexivity |].
    rewrite appended_app, opened_app, Happ, Hopen. split; reflexivity.
  - intros st aid s0 Hin. apply loop_body_known.
    rewrite forallb_forall in Hall'. auto.
Qed.

End RunClaims.

(** ** The directory scanner *)

Lemma fnmatch_star_intro (p pre suf : string) :
  fnmatch p suf = true -> fnmatch (String "*" p) (pre ++ suf) = true.
Proof.
  intros H. induction pre as [| c pre IH]; cbn [append].
  - destruct suf; simpl; simpl in H; rewrite H; reflexivity.
  - simpl. simpl in IH. rewrite IH. apply orb_true_r.
Qed.

Lemma fnmatch_star_inv (p n : string) :
  fnmatch (String "*" p) n = true ->
  exists pre suf, n = pre ++ suf /\ fnmatch p suf = true.
Proof.
  induction n as [| c n IH]; simpl; intros H.
  - exists "", "". rewrite orb_false_r in H. auto.
  - apply orb_prop in H. destruct H as [H | H].
    + exists "", (String c n). auto.
    + destruct (IH H) as (pre & suf & -> & Hsuf).
      exists (String c pre), suf. auto.
Qed.

Lemma fnmatch_char_inv (c : ascii) (p n : string) :
  Ascii.eqb c "*" = false ->
  fnmatch (String c p) n = true ->
  exists n', n = String c n' /\ fnmatch p n' = true.
Proof.
  intros Hc. simpl. rewrite Hc. destruct n as [| d n]; [discriminate |].
  intros H. apply andb_prop in H. destruct H as (Hcd & H).
  apply Ascii.eqb_eq in Hcd. subst d. eauto.
Qed.

(** Every name that matches the pattern of the details files matches the
    pattern of the flat files as well. *)
Lemma details_pattern_in_flat_pattern (name : string) :
  fnmatch "activity_details_*.json" name = true ->
  fnmatch "activity_*.json" name = true.
Proof.
  intros H.
  repeat (apply fnmatch_char_inv in H; [| reflexivity];
          destruct H as (? & -> & H)).
  apply fnmatch_star_inv in H. destruct H as (pre & suf & -> & H).
  change (fnmatch "*.json" (("details_" ++ pre) ++ suf) = true).
  now apply fnmatch_star_intro.
Qed.

Lemma mapM_In {A B : Type} (f : A -> result B) (l : list A) (bs : list B) (a : A) (b : B) :
  mapM f l = Ok bs -> In a l -> f a = Ok b -> In b bs.
Proof.
  revert bs. induction l as [| x l IH]; intros bs H Hin Hfa; [contradiction |].
  simpl in H. bind_inv H. bind_inv H. injection H as <-.
  destruct Hin as [-> | Hin].
  - left. congruence.
  - right. eauto.
Qed.

Lemma In_insert_sorted (x y : string) (l : list string) :
  In y (insert_sorted x l) <-> y = x \/ In y l.
Proof.
  induction l as [| z l IH]; simpl; [intuition |].
  destruct (String.leb x z); simpl; [intuition |].
  rewrite IH. intuition.
Qed.

Lemma In_py_sorted (y : string) (l : list string) :
  In y (py_sorted l) <-> In y l.
Proof.
  induction l as [| x l IH]; simpl; [tauto |].
  rewrite In_insert_sorted, IH. intuition.
Qed.

Lemma In_set_inter (x : string) (a b : list string) :
  In x (set_inter a b) <-> In x a /\ In x b.
Proof.
  unfold set_inter. rewrite filter_In, str_mem_In. tauto.
Qed.

(** The identifier of a details file is always among the common
    identifiers, whether its flat file exists or not. *)
Lemma details_id_is_common
    (fs : filesystem) (names ids : list string) (name aid : string) :
  fs_names fs = Some names ->
  In name names ->
  fnmatch "activity_details_*.json" name = true ->
  get_id (os_path_join ACTIVITIES_DIR name) = Ok aid ->
  common_ids_of (glob fs ACTIVITIES_DIR "activity_*.json")
                (glob fs ACTIVITIES_DIR "activity_details_*.json") = Ok ids ->
  In aid ids.
Proof.
  intros Hnames Hin Hdet Hid Hcommon.
  unfold glob in Hcommon. rewrite Hnames in Hcommon.
  unfold common_ids_of in Hcommon. bind_inv Hcommon. bind_inv Hcommon.
  injection Hcommon as <-.
  apply In_py_sorted, In_set_inter. split; apply In_set_of_list.
  - eapply mapM_In; [exact Hv | | exact Hid].
    apply in_map, filter_In. split; [exact Hin |].
    now apply details_pattern_in_flat_pattern.
  - eapply mapM_In; [exact Hv0 | | exact Hid].
    apply in_map, filter_In. auto.
Qed.

(** ** The program on the reference environment *)

(** C1: the directory holds [activity_details_7.json] and no
    [activity_7.json], and 7 is among the common identifiers all the same:
    the pattern [activity_*.json] matches the details file too.  Its flat
    file is then not found.  A directory with [activity_8.json] only has no
    common identifier. *)
Theorem details_only_id_is_common :
  glob details_only_directory ACTIVITIES_DIR "activity_*.json" = [details_path "7"] /\
  glob details_only_directory ACTIVITIES_DIR "activity_details_*.json" = [details_path "7"] /\
  common_ids_of (glob details_only_directory ACTIVITIES_DIR "activity_*.json")
                (glob details_only_directory ACTIVITIES_DIR "activity_details_*.json")
    = Ok ["7"] /\
  fs_load details_only_directory (flat_path "7") = Err (FileNotFoundError (flat_path "7")) /\
  common_ids_of (glob flat_only_directory ACTIVITIES_DIR "activity_*.json")
                (glob flat_only_directory ACTIVITIES_DIR "activity_details_*.json")
    = Ok [].
Proof. repeat split; vm_compute; reflexivity. Qed.

(** The row of the sample activity has 46 cells, not 44. *)
Lemma build_row_has_46_cells :
  @merge_data ref_runtime (sample_details 12345 sample_splits) sample_flat = Ok sample_merged /\
  @build_row ref_runtime sample_merged = Ok sample_row /\
  List.length sample_row = 46%nat /\
  (List.length sample_row =? 44)%nat = false.
Proof. repeat split; vm_compute; reflexivity. Qed.

Lemma build_row_length_and_order_witness :
  exists row,
    @build_row ref_runtime sample_merged = Ok row /\
    List.length row = 46%nat /\
    nth_error row 0 = Some (VInt 12345) /\
    nth_error row 18 = Some (VFloat 5) /\
    nth_error row 19 = Some sample_pace.
Proof.
  destruct (@build_row_length_and_order ref_runtime sample_merged (VFloat 5) sample_pace)
    as (row & Hrow & _ & Hlen & Hcells);
    [vm_compute; reflexivity | vm_compute; reflexivity |].
  exists row. split; [exact Hrow |]. split; [exact Hlen |].
  split; [| split].
  - rewrite (Hcells 0%nat "activityId" eq_refl). reflexivity.
  - rewrite (Hcells 18%nat "averageStrideLength" eq_refl). reflexivity.
  - rewrite (Hcells 19%nat "averagePaceMinPerKm" eq_refl). reflexivity.
Defined.

(** The flat document lacks every key it is read for, and the merge
    succeeds. *)
Lemma merge_data_without_flat_fields :
  lookup_path (VDict []) ["beginTimestamp"] = None /\
  lookup_path (VDict []) ["vO2MaxValue"] = None /\
  lookup_path (VDict []) ["hrTimeInZone_1"] = None /\
  @merge_data ref_runtime (sample_details 12345 sample_splits) (VDict [])
    = Ok merged_without_flat.
Proof. repeat split; vm_compute; reflexivity. Qed.

Lemma merge_data_missing_path_witness :
  (exists e, @merge_data ref_runtime details_without_summary sample_flat = Err e) /\
  (exists m',
     @merge_data ref_runtime (sample_details 12345 sample_splits) (VDict []) = Ok m' /\
     dict_get m' "activityTimestampMs" = Some VNone) /\
  dict_get sample_merged "splitsJSON" = Some sample_splits.
Proof.
  split; [| split].
  - apply (proj1 (@merge_data_missing_path ref_runtime details_without_summary sample_flat)
             ["summaryDTO"; "distance"]).
    + vm_compute. tauto.
    + reflexivity.
  - destruct (proj1 (proj2 (@merge_data_missing_path ref_runtime
                              (sample_details 12345 sample_splits) sample_flat))
                _ sample_merged [] eq_refl) as (m' & Hm' & Hget).
    + vm_compute. reflexivity.
    + exists m'. split; [exact Hm' |].
      apply (Hget "beginTimestamp"); [vm_compute; tauto | reflexivity].
  - reflexivity.
Defined.

(** The flat document has no [beginTimestamp], and the cell of the column
    [activityTimestampMs] is [None], not the empty string. *)
Lemma absent_flat_field_gives_None :
  @merge_data ref_runtime (sample_details 12345 sample_splits) (VDict [])
    = Ok merged_without_flat /\
  @build_row ref_runtime merged_without_flat = Ok row_without_flat /\
  nth_error HEADERS 10 = Some "activityTimestampMs" /\
  nth_error row_without_flat 10 = Some VNone.
Proof. repeat split; vm_compute; reflexivity. Qed.

Lemma build_row_absent_fields_witness :
  (exists row,
     @build_row ref_runtime sparse_record = Ok row /\
     nth_error row 1 = Some (VStr "")) /\
  nth_error row_without_flat 33 = Some VNone.
Proof.
  split.
  - assert (H : @build_row ref_runtime sparse_record
                 = Ok (VInt 7 :: repeat (VStr "") 45)) by (vm_compute; reflexivity).
    exists (VInt 7 :: repeat (VStr "") 45). split; [exact H |].
    apply (proj2 (proj1 (@build_row_absent_fields ref_runtime) sparse_record _ H)
             1%nat "activityName"); reflexivity.
  - apply (proj1 (proj2 (@build_row_absent_fields ref_runtime))
             (sample_details 12345 sample_splits) [] merged_without_flat
             row_without_flat "vO2MaxValue" "vo2MaxValue" 33%nat).
    + vm_compute. reflexivity.
    + vm_compute. reflexivity.
    + vm_compute. tauto.
    + reflexivity.
    + reflexivity.
Defined.

Lemma derived_fields_witness :
  compute_stride_length (VInt 5000) (VInt 1000) = Ok (VFloat 5) /\
  compute_stride_length (VInt 5000) (VInt 0) = Ok (VStr "") /\
  compute_pace_min_per_km (VFloat 2.5) = Ok sample_pace /\
  compute_pace_min_per_km (VFloat 0) = Ok (VStr "") /\
  stride_of sparse_record = Ok (VStr "") /\
  pace_of sparse_record = Ok (VStr "").
Proof.
  destruct (derived_fields (VInt 5000)) as (Hsi & _ & _ & Hpf & _ & _ & Hs & Hp).
  split; [rewrite Hsi; vm_compute; reflexivity |].
  split; [rewrite Hsi; reflexivity |].
  split; [rewrite Hpf; vm_compute; reflexivity |].
  split; [rewrite Hpf; reflexivity |].
  split; [apply Hs; reflexivity | apply Hp; reflexivity].
Defined.

Lemma build_row_truncates_nested_witness :
  MAX_CELL_LENGTH < str_len (@json_dumps ref_runtime big_splits) /\
  exists row text,
    @build_row ref_runtime big_record = Ok row /\
    nth_error row 45 = Some (VStr text) /\
    String.prefix text (@json_dumps ref_runtime big_splits) = true /\
    str_len text = MAX_CELL_LENGTH.
Proof.
  assert (Hlong : MAX_CELL_LENGTH < str_len (@json_dumps ref_runtime big_splits))
    by (vm_compute; reflexivity).
  split; [exact Hlong |].
  assert (Hs : stride_of big_record = Ok (VFloat 5)) by (vm_compute; reflexivity).
  assert (Hp : pace_of big_record = Ok sample_pace) by (vm_compute; reflexivity).
  destruct (@build_row_truncates_nested ref_runtime big_record (VFloat 5) sample_pace
              45%nat "splitsJSON" big_splits Hs Hp eq_refl eq_refl eq_refl eq_refl eq_refl)
    as (row & text & Hrow & Hcell & _ & Hpre & Hcut & _).
  exists row, text. auto.
Defined.

Lemma build_row_cells_scalar_witness :
  Forall (fun v => is_nested v = false) sample_row.
Proof.
  apply (@build_row_cells_scalar ref_runtime sample_merged).
  vm_compute. reflexivity.
Defined.

Lemma ref_worksheet_accepts : accepts_appends (S := sheet) (WS := ref_worksheet).
Proof. intros s rows. eexists. reflexivity. Qed.

Lemma upload_flushes_in_chunks_witness :
  exists s' t,
    @upload ref_runtime sheet ref_worksheet (directory (sample_files 250)) []
      (sample_ids 250) empty_sheet = (Ok 250%nat, s', t) /\
    map (@List.length (list value)) (appended t) = [100; 100; 50]%nat.
Proof.
  destruct (@upload_flushes_in_chunks ref_runtime sheet ref_worksheet
              (directory (sample_files 250)) [] (sample_ids 250) empty_sheet)
    as (s' & t & Hrun & _ & _ & H250);
    [exact ref_worksheet_accepts | vm_compute; reflexivity | vm_compute; reflexivity |].
  exists s', t. split; [exact Hrun |].
  apply H250. vm_compute. reflexivity.
Defined.

Lemma known_ids_are_skipped_witness :
  exists t,
    @main ref_runtime sheet ref_worksheet (directory (sample_files 3)) sheet_after_first_run
      = (Ok tt, sheet_after_first_run, t) /\
    appended t = [] /\ opened t = [].
Proof.
  apply (proj1 (@known_ids_are_skipped ref_runtime sheet ref_worksheet
                  (directory (sample_files 3)) sheet_after_first_run
                  "activityId" (tl HEADERS) "activityId" ["1"; "2"; "3"] ["1"; "2"; "3"]
                  eq_refl eq_refl eq_refl eq_refl eq_refl eq_refl)).
Defined.

Lemma record_failure_is_isolated_witness :
  try_activity (RT := ref_runtime) (directory broken_files) "2"
    = Err (JSONDecodeError (details_path "2")) /\
  exists s' t,
    @upload ref_runtime sheet ref_worksheet (directory broken_files) []
      ["1"; "2"; "3"] empty_sheet = (Ok 2%nat, s', t) /\
    List.length (List.concat (appended t)) = 2%nat /\
    In (Print (MsgErreur "2" (JSONDecodeError (details_path "2")))) t.
Proof.
  assert (Hfail : try_activity (RT := ref_runtime) (directory broken_files) "2"
                  = Err (JSONDecodeError (details_path "2"))) by (vm_compute; reflexivity).
  split; [exact Hfail |].
  destruct (proj1 (@record_failure_is_isolated ref_runtime sheet ref_worksheet
                     (directory broken_files) [] ["1"; "2"; "3"] empty_sheet
                     ref_worksheet_accepts))
    as (s' & t & Hrun & Hcat & Herr).
  exists s', t. split; [exact Hrun |]. split.
  - rewrite Hcat. vm_compute. reflexivity.
  - apply Herr; [simpl; tauto | reflexivity | exact Hfail].
Defined.

(** * Further properties of the script *)

(** ** Identifiers and file names *)

Lemma str_contains_app (c : ascii) (a b : string) :
  str_contains c (a ++ b) = str_contains c a || str_contains c b.
Proof.
  induction a as [| x a IH]; simpl; [reflexivity |].
  rewrite IH. apply orb_assoc.
Qed.

Lemma str_app_assoc (a b c : string) : (a ++ b) ++ c = a ++ b ++ c.
Proof.
  induction a as [| x a IH]; simpl; [reflexivity | now rewrite IH].
Qed.

Lemma rsplit1_none (c : ascii) (s : string) :
  str_contains c s = false -> rsplit1 c s = None.
Proof.
  induction s as [| a s IH]; simpl; [reflexivity |].
  intros H. apply orb_false_elim in H. destruct H as (Ha & Hs).
  rewrite (IH Hs), Ha. reflexivity.
Qed.

Lemma rsplit1_prefix (c : ascii) (p s before after : string) :
  rsplit1 c s = Some (before, after) ->
  rsplit1 c (p ++ s) = Some (p ++ before, after).
Proof.
  intros H. induction p as [| a p IH]; simpl; [exact H |].
  rewrite IH. reflexivity.
Qed.

Lemma rsplit1_last (c : ascii) (pre suf : string) :
  str_contains c suf = false ->
  rsplit1 c (pre ++ String c suf) = Some (pre, suf).
Proof.
  intros H.
  assert (H0 : rsplit1 c (String c suf) = Some ("", suf)).
  { simpl. rewrite (rsplit1_none c suf H), Ascii.eqb_refl. reflexivity. }
  rewrite (rsplit1_prefix c pre _ _ _ H0).
  f_equal. f_equal. induction pre as [| a pre IH]; simpl; [reflexivity | now rewrite IH].
Qed.

(** The identifier read from [name] in the activities directory, for a
    name that holds no separator. *)
Lemma get_id_in_directory (name : string) :
  str_contains "/" name = false ->
  String.prefix "/" name = false ->
  get_id (os_path_join ACTIVITIES_DIR name) =
    match rsplit1 "_" (os_path_splitext_root name) with
    | Some (_, after) => Ok after
    | None => Err IndexError
    end.
Proof.
  intros Hsep Habs. unfold get_id, os_path_join. rewrite Habs.
  change (String.eqb ACTIVITIES_DIR "" || ends_with_slash ACTIVITIES_DIR) with false.
  cbn iota. unfold os_path_basename.
  change (ACTIVITIES_DIR ++ "/" ++ name) with (ACTIVITIES_DIR ++ String "/" name).
  rewrite (rsplit1_last "/" ACTIVITIES_DIR name Hsep). reflexivity.
Qed.

(** X1: the identifier read from the path of the flat file or of the
    details file of [aid] is [aid], provided [aid] holds neither an
    underscore nor a separator; the files the loop opens for an identifier
    are files that give this identifier. *)
Theorem get_id_of_activity_paths (aid : string) :
  str_contains "_" aid = false ->
  str_contains "/" aid = false ->
  get_id (flat_path aid) = Ok aid /\ get_id (details_path aid) = Ok aid.
Proof.
  intros Hus Hsep.
  assert (Hjson : forall stem : string,
            os_path_splitext_root (stem ++ aid ++ ".json") = 
              if all_dots (stem ++ aid) then stem ++ aid ++ ".json" else stem ++ aid).
  { intros stem. unfold os_path_splitext_root.
    replace (stem ++ aid ++ ".json") with ((stem ++ aid) ++ String "." "json").
    - rewrite (rsplit1_last "." (stem ++ aid) "json" eq_refl). reflexivity.
    - apply str_app_assoc. }
  split.
  - unfold flat_path. rewrite get_id_in_directory.
    + rewrite (Hjson "activity_"). cbn [append all_dots Ascii.eqb Bool.eqb andb].
      change (String "a" (String "c" (String "t" (String "i" (String "v" (String "i"
                (String "t" (String "y" (String "_" aid)))))))))
        with ("activity" ++ String "_" aid).
      rewrite (rsplit1_last "_" "activity" aid Hus). reflexivity.
    + rewrite !str_contains_app, Hsep. reflexivity.
    + reflexivity.
  - unfold details_path. rewrite get_id_in_directory.
    + rewrite (Hjson "activity_details_"). cbn [append all_dots Ascii.eqb Bool.eqb andb].
      change (String "a" (String "c" (String "t" (String "i" (String "v" (String "i"
                (String "t" (String "y" (String "_" (String "d" (String "e" (String "t"
                (String "a" (String "i" (String "l" (String "s" (String "_" aid)))))))))))))))))
        with ("activity_details" ++ String "_" aid).
      rewrite (rsplit1_last "_" "activity_details" aid Hus). reflexivity.
    + rewrite !str_contains_app, Hsep. reflexivity.
    + reflexivity.
Qed.

Lemma get_id_of_activity_paths_witness :
  get_id (flat_path "12345") = Ok "12345" /\ get_id (details_path "12345") = Ok "12345".
Proof. apply get_id_of_activity_paths; reflexivity. Defined.

Lemma rsplit1_some (c : ascii) (x y : string) :
  exists before after, rsplit1 c (x ++ String c y) = Some (x ++ before, after).
Proof.
  assert (H : exists before after, rsplit1 c (String c y) = Some (before, after)).
  { simpl. destruct (rsplit1 c y) as [[b a] |]; [eauto |].
    rewrite Ascii.eqb_refl. eauto. }
  destruct H as (b & a & H). exists b, a. now apply rsplit1_prefix.
Qed.

(** A name that matches [activity_*.json] is [activity_], some text, and
    [.json]. *)
Lemma fnmatch_flat_shape (name : string) :
  fnmatch "activity_*.json" name = true ->
  exists mid, name = "activity_" ++ mid ++ ".json".
Proof.
  intros H.
  repeat (apply fnmatch_char_inv in H; [| reflexivity];
          destruct H as (? & -> & H)).
  apply fnmatch_star_inv in H. destruct H as (mid & suf & -> & H).
  repeat (apply fnmatch_char_inv in H; [| reflexivity];
          destruct H as (? & -> & H)).
  simpl in H. apply String.eqb_eq in H. subst. exists mid. reflexivity.
Qed.

Lemma get_id_of_matched_name (name : string) :
  str_contains "/" name = false ->
  fnmatch "activity_*.json" name = true ->
  exists aid, get_id (os_path_join ACTIVITIES_DIR name) = Ok aid.
Proof.
  intros Hsep Hmatch.
  destruct (fnmatch_flat_shape name Hmatch) as (mid & ->).
  rewrite get_id_in_directory; [| exact Hsep | reflexivity].
  unfold os_path_splitext_root.
  destruct (rsplit1_some "." ("activity_" ++ mid) "json") as (b & a & Hdot).
  rewrite str_app_assoc in Hdot.
  change (String "." "json") with ".json" in Hdot. rewrite Hdot.
  rewrite str_app_assoc. cbn [append all_dots Ascii.eqb Bool.eqb andb].
  destruct (rsplit1_some "_" "activity" (mid ++ b)) as (b' & a' & Hus).
  cbn [append] in Hus. rewrite Hus. eauto.
Qed.

Lemma mapM_ok {A B : Type} (f : A -> result B) (l : list A) :
  (forall a, In a l -> exists b, f a = Ok b) ->
  exists bs, mapM f l = Ok bs.
Proof.
  induction l as [| a l IH]; intros H; simpl; [eauto |].
  destruct (H a (or_introl eq_refl)) as (b & Hb). rewrite Hb. simpl.
  destruct IH as (bs & Hbs); [intros x Hx; apply H; now right |].
  rewrite Hbs. simpl. eauto.
Qed.

Lemma mapM_In_inv {A B : Type} (f : A -> result B) (l : list A) (bs : list B) (b : B) :
  mapM f l = Ok bs -> In b bs -> exists a, In a l /\ f a = Ok b.
Proof.
  revert bs. induction l as [| x l IH]; intros bs H Hin; simpl in H.
  - injection H as <-. contradiction.
  - bind_inv H. bind_inv H. injection H as <-.
    destruct Hin as [<- | Hin].
    + exists x. split; [now left | assumption].
    + destruct (IH _ Hv0 Hin) as (a & Ha & Hfa).
      exists a. split; [now right | assumption].
Qed.

(** X2: on a directory whose names hold no separator, reading the
    identifiers never raises: every matched name has an underscore before
    its extension, so the index [1] of line 175 exists. *)
Theorem scan_never_raises (fs : filesystem) (names : list string) :
  fs_names fs = Some names ->
  forallb (fun name => negb (str_contains "/" name)) names = true ->
  exists ids,
    common_ids_of (glob fs ACTIVITIES_DIR "activity_*.json")
                  (glob fs ACTIVITIES_DIR "activity_details_*.json") = Ok ids.
Proof.
  intros Hnames Hsep. unfold glob. rewrite Hnames.
  rewrite forallb_forall in Hsep.
  assert (Hid : forall pat,
            (forall name, fnmatch pat name = true -> fnmatch "activity_*.json" name = true) ->
            exists l, mapM get_id (map (os_path_join ACTIVITIES_DIR)
                                       (filter (fnmatch pat) names)) = Ok l).
  { intros pat Hpat. apply mapM_ok. intros p Hp.
    apply in_map_iff in Hp. destruct Hp as (name & <- & Hin).
    apply filter_In in Hin. destruct Hin as (Hin & Hm).
    apply get_id_of_matched_name; [| auto].
    apply negb_true_iff. auto. }
  destruct (Hid "activity_*.json") as (flat_ids & Hflat); [auto |].
  destruct (Hid "activity_details_*.json") as (det_ids & Hdet);
    [apply details_pattern_in_flat_pattern |].
  unfold common_ids_of. rewrite Hflat, Hdet. simpl. eauto.
Qed.

Lemma scan_never_raises_witness :
  exists ids,
    common_ids_of (glob (directory (sample_files 3)) ACTIVITIES_DIR "activity_*.json")
                  (glob (directory (sample_files 3)) ACTIVITIES_DIR "activity_details_*.json")
      = Ok ids.
Proof.
  apply (scan_never_raises (directory (sample_files 3)) (map fst (sample_files 3)));
    reflexivity.
Defined.

(** The order of strings, by code points. *)
Lemma string_leb_trans (a b c : string) :
  String.leb a b = true -> String.leb b c = true -> String.leb a c = true.
Proof.
  unfold String.leb. revert b c.
  induction a as [| x a IH]; intros [| y b] [| z c]; simpl; auto; try discriminate.
  unfold Ascii.compare.
  destruct (N.compare_spec (N_of_ascii x) (N_of_ascii y)) as [Hxy | Hxy | Hxy];
    destruct (N.compare_spec (N_of_ascii y) (N_of_ascii z)) as [Hyz | Hyz | Hyz];
    destruct (N.compare_spec (N_of_ascii x) (N_of_ascii z)) as [Hxz | Hxz | Hxz];
    try discriminate; try reflexivity; try lia.
  apply IH.
Qed.

Lemma insert_sorted_sorted (x : string) (l : list string) :
  Sorted (fun a b => String.leb a b = true) l ->
  Sorted (fun a b => String.leb a b = true) (insert_sorted x l).
Proof.
  induction 1 as [| y l Hs IH Hhd]; simpl.
  - repeat constructor.
  - destruct (String.leb x y) eqn:E.
    + constructor; [constructor; assumption | constructor; exact E].
    + constructor; [exact IH |].
      assert (Hyx : String.leb y x = true).
      { destruct (String.leb_total x y) as [H | H]; [congruence | exact H]. }
      destruct l as [| z l]; simpl.
      * constructor. exact Hyx.
      * destruct (String.leb x z); constructor; [exact Hyx |].
        now inversion Hhd.
Qed.

Lemma py_sorted_sorted (l : list string) :
  Sorted (fun a b => String.leb a b = true) (py_sorted l).
Proof.
  induction l as [| x l IH]; simpl; [constructor |].
  now apply insert_sorted_sorted.
Qed.

Lemma NoDup_insert_sorted (x : string) (l : list string) :
  ~ In x l -> NoDup l -> NoDup (insert_sorted x l).
Proof.
  induction l as [| y l IH]; simpl; intros Hx Hnd.
  - constructor; [tauto | constructor].
  - destruct (String.leb x y).
    + constructor; [simpl; tauto | exact Hnd].
    + inversion Hnd as [| ? ? Hy Hnd']; subst.
      constructor.
      * rewrite In_insert_sorted. intros [-> | H]; tauto.
      * apply IH; tauto.
Qed.

Lemma NoDup_py_sorted (l : list string) : NoDup l -> NoDup (py_sorted l).
Proof.
  induction 1 as [| x l Hx Hnd IH]; simpl; [constructor |].
  apply NoDup_insert_sorted; [| exact IH].
  now rewrite In_py_sorted.
Qed.

Lemma NoDup_set_of_list (l : list string) : NoDup (set_of_list l).
Proof.
  induction l as [| x l IH]; simpl; [constructor |].
  destruct (str_mem x l) eqn:E; [exact IH |].
  constructor; [| exact IH].
  rewrite In_set_of_list. intros H. apply str_mem_In in H. congruence.
Qed.

(** X3: the identifiers the loop runs over are the identifiers of the
    files that match [activity_details_*.json], each once, in ascending
    order. *)
Theorem common_ids_are_details_ids (fs : filesystem) (names ids : list string) :
  fs_names fs = Some names ->
  common_ids_of (glob fs ACTIVITIES_DIR "activity_*.json")
                (glob fs ACTIVITIES_DIR "activity_details_*.json") = Ok ids ->
  NoDup ids /\
  Sorted (fun a b => String.leb a b = true) ids /\
  forall aid,
    In aid ids <->
    exists name,
      In name names /\
      fnmatch "activity_details_*.json" name = true /\
      get_id (os_path_join ACTIVITIES_DIR name) = Ok aid.
Proof.
  intros Hnames Hcommon.
  assert (Hcommon' := Hcommon).
  unfold glob in Hcommon. rewrite Hnames in Hcommon.
  unfold common_ids_of in Hcommon. bind_inv Hcommon. bind_inv Hcommon.
  injection Hcommon as <-.
  split; [| split].
  - apply NoDup_py_sorted. unfold set_inter. apply NoDup_filter, NoDup_set_of_list.
  - apply py_sorted_sorted.
  - intros aid. split.
    + intros Hin. apply (proj1 (In_py_sorted _ _)) in Hin.
      apply (proj1 (In_set_inter _ _ _)) in Hin. destruct Hin as (_ & Hin).
      apply (proj1 (In_set_of_list _ _)) in Hin.
      destruct (mapM_In_inv _ _ _ _ Hv0 Hin) as (p & Hp & Hid).
      apply in_map_iff in Hp. destruct Hp as (name & <- & Hname).
      apply filter_In in Hname. destruct Hname as (Hname & Hmatch).
      exists name. auto.
    + intros (name & Hin & Hmatch & Hid).
      exact (details_id_is_common fs names _ name aid Hnames Hin Hmatch Hid Hcommon').
Qed.

Lemma common_ids_are_details_ids_witness :
  NoDup ["1"; "2"; "3"] /\
  Sorted (fun a b => String.leb a b = true) ["1"; "2"; "3"] /\
  In "2" ["1"; "2"; "3"].
Proof.
  destruct (common_ids_are_details_ids (directory (sample_files 3))
              (map fst (sample_files 3)) ["1"; "2"; "3"] eq_refl eq_refl)
    as (Hnd & Hs & Hin).
  split; [exact Hnd |]. split; [exact Hs |].
  apply Hin. exists "activity_details_2.json".
  split; [vm_compute; tauto |]. split; reflexivity.
Defined.

(** ** The run as a whole *)

Section WholeRun.

Context {RT : Runtime} {S : Type} {WS : Worksheet S}.
Variable fs : filesystem.

(** X4: when the activities directory does not exist, a run on a worksheet
    that is there with its header row is no error: it reports that the
    directory is missing and that no pair was found, waits for the key, and
    opens no file and sends nothing. *)
Theorem main_without_directory
    (s : S) (cell1 : string) (row1 col : list string) :
  fs_names fs = None ->
  connect s = Ok tt ->
  worksheet s WORKSHEET_NAME = Ok tt ->
  row_values s 1 = Ok (cell1 :: row1) ->
  col_values s 1 = Ok col ->
  main fs s =
    (Ok tt, s,
     [Print (MsgPresent (List.length (set_of_list (tl col))));
      Print (MsgDirExists false);
      Print (MsgFlatFiles []); Print (MsgDetailFiles []);
      Print (MsgCommonIds []); Print MsgNoPair; Input]).
Proof.
  intros Hdir Hc Hw Hr Hcol.
  unfold main, catch, mbind at 1. unfold main_body.
  rewrite (mbind_ok _ _ _ _ _ _ (load_worksheet_ready s cell1 row1 Hc Hw Hr)).
  rewrite (mbind_ok _ _ _ _ _ _ (get_existing_ids_eq s col Hcol)).
  unfold glob, os_path_isdir. rewrite Hdir.
  reflexivity.
Qed.

(** X5: a run on a worksheet that is there with its header row and takes
    every batch ends normally, and the rows it sends are, in order, the rows
    of the common identifiers that are not in column 1 below the header and
    whose files load and merge; it reports their number. *)
Theorem main_appends_new_rows
    (s : S) (cell1 : string) (row1 col ids : list string) :
  accepts_appends (S := S) ->
  connect s = Ok tt ->
  worksheet s WORKSHEET_NAME = Ok tt ->
  row_values s 1 = Ok (cell1 :: row1) ->
  col_values s 1 = Ok col ->
  common_ids_of (glob fs ACTIVITIES_DIR "activity_*.json")
                (glob fs ACTIVITIES_DIR "activity_details_*.json") = Ok ids ->
  let rows := new_rows_of fs (set_of_list (tl col)) ids in
  exists s' t,
    main fs s = (Ok tt, s', t) /\
    List.concat (appended t) = rows /\
    In (Print (match ids with
               | [] => MsgNoPair
               | _ :: _ => MsgTermine (List.length rows)
               end)) t.
Proof.
  intros Haccepts Hc Hw Hr Hcol Hids rows.
  unfold main, catch, mbind at 1. unfold main_body.
  rewrite (mbind_ok _ _ _ _ _ _ (load_worksheet_ready s cell1 row1 Hc Hw Hr)).
  rewrite (mbind_ok _ _ _ _ _ _ (get_existing_ids_eq s col Hcol)).
  set (known := set_of_list (tl col)) in *.
  unfold print, emit.
  repeat (rewrite (mbind_ok _ _ s s tt _ eq_refl)).
  assert (Hlift : lift (S := S) (common_ids_of (glob fs ACTIVITIES_DIR "activity_*.json")
                          (glob fs ACTIVITIES_DIR "activity_details_*.json")) s
                  = (Ok ids, s, [])) by (unfold lift; now rewrite Hids).
  rewrite (mbind_ok _ _ _ _ _ _ Hlift).
  rewrite (mbind_ok _ _ s s tt _ eq_refl).
  destruct ids as [| aid ids'].
  - eexists s, _. split; [reflexivity |]. split; [reflexivity |].
    simpl. tauto.
  - destruct (upload_spec fs known (aid :: ids') s Haccepts)
      as (s' & t & Hrun & Hcat & _ & _).
    fold rows in Hrun, Hcat.
    rewrite (mbind_ok _ _ _ _ _ _ Hrun).
    eexists s', _. split; [reflexivity |]. cbn [app].
    split.
    + rewrite !appended_print, !appended_app. cbn [appended flat_map app].
      rewrite !app_nil_r. exact Hcat.
    + do 5 right. apply in_or_app. left. apply in_or_app. right. now left.
Qed.

End WholeRun.

Lemma main_without_directory_witness :
  @main ref_runtime sheet ref_worksheet missing_directory sheet_after_first_run =
    (Ok tt, sheet_after_first_run,
     [Print (MsgPresent 3); Print (MsgDirExists false);
      Print (MsgFlatFiles []); Print (MsgDetailFiles []);
      Print (MsgCommonIds []); Print MsgNoPair; Input]).
Proof.
  exact (@main_without_directory ref_runtime sheet ref_worksheet missing_directory
           sheet_after_first_run "activityId" (tl HEADERS) ["activityId"; "1"; "2"; "3"]
           eq_refl eq_refl eq_refl eq_refl eq_refl).
Defined.

Lemma main_appends_new_rows_witness :
  exists s' t,
    @main ref_runtime sheet ref_worksheet (directory (sample_files 5)) sheet_after_first_run
      = (Ok tt, s', t) /\
    List.length (List.concat (appended t)) = 2%nat /\
    In (Print (MsgTermine 2)) t.
Proof.
  destruct (@main_appends_new_rows ref_runtime sheet ref_worksheet
              (directory (sample_files 5)) sheet_after_first_run
              "activityId" (tl HEADERS) ["activityId"; "1"; "2"; "3"]
              ["1"; "2"; "3"; "4"; "5"]
              ref_worksheet_accepts eq_refl eq_refl eq_refl eq_refl eq_refl)
    as (s' & t & Hrun & Hcat & Hin).
  exists s', t. split; [exact Hrun |]. split.
  - rewrite Hcat. vm_compute. reflexivity.
  - exact Hin.
Defined.

(** Rewrites the batches of a trace built from the events of one turn. *)
Ltac appended_simpl :=
  repeat (rewrite appended_print || rewrite appended_app
          || rewrite appended_opened_files).

Section RefusedAppend.

Context {RT : Runtime} {S : Type} {WS : Worksheet S}.
Variable fs : filesystem.
Variable known_ids : list string.
Variable x : exn.
Hypothesis Hrefuses : forall (s : S) (rows : list (list value)), append_rows s rows = Err x.

Lemma for_each_refused (ids : list string) :
  forall (buf : list (list value)) (added : nat) (s : S),
    (List.length buf < CHUNK_SIZE)%nat ->
    let rows := (buf ++ new_rows_of fs known_ids ids)%list in
    exists r t,
      for_each (loop_body fs known_ids) ids (buf, added) s = (r, s, t) /\
      if (List.length rows <? CHUNK_SIZE)%nat
      then r = Ok (rows, (added + List.length (new_rows_of fs known_ids ids))%nat) /\
           appended t = []
      else r = Err x /\ appended t = [firstn CHUNK_SIZE rows].
Proof.
  induction ids as [| aid ids IH]; intros buf added s Hlen rows; subst rows.
  - simpl. rewrite app_nil_r, Nat.add_0_r.
    apply Nat.ltb_lt in Hlen. rewrite Hlen.
    eexists _, _. split; [reflexivity |]. split; reflexivity.
  - cbn [for_each]. unfold mbind.
    unfold new_rows_of. cbn [flat_map]. fold (new_rows_of fs known_ids ids).
    destruct (str_mem aid known_ids) eqn:Hknown.
    + rewrite (loop_body_known fs known_ids _ aid s Hknown). cbn [app].
      destruct (IH buf added s Hlen) as (r & t & Hrun & Hres).
      rewrite Hrun. eexists _, _. split; [reflexivity |]. exact Hres.
    + destruct (try_activity fs aid) as [row | e0] eqn:Htry.
      * replace (added + List.length ([row] ++ new_rows_of fs known_ids ids))%nat
          with (Datatypes.S added + List.length (new_rows_of fs known_ids ids))%nat
          by (cbn [app List.length]; lia).
        replace (buf ++ [row] ++ new_rows_of fs known_ids ids)%list
          with ((buf ++ [row]) ++ new_rows_of fs known_ids ids)%list
          by (now rewrite <- app_assoc).
        rewrite (loop_body_row fs known_ids buf added aid row s Hknown Htry).
        destruct (CHUNK_SIZE <=? List.length (buf ++ [row]))%nat eqn:Hfull.
        -- rewrite Hrefuses. eexists _, _. split; [reflexivity |].
           apply Nat.leb_le in Hfull.
           assert (Hexact : List.length (buf ++ [row])%list = CHUNK_SIZE).
           { rewrite length_app in *. simpl in *. lia. }
           assert (Hge : (List.length ((buf ++ [row]) ++ new_rows_of fs known_ids ids)
                          <? CHUNK_SIZE)%nat = false).
           { apply Nat.ltb_ge. rewrite length_app. lia. }
           rewrite Hge. split; [reflexivity |].
           appended_simpl. cbn [appended flat_map app].
           rewrite firstn_app, Hexact, Nat.sub_diag, firstn_O, app_nil_r.
           rewrite <- Hexact at 1. now rewrite firstn_all.
        -- apply Nat.leb_gt in Hfull.
           destruct (IH (buf ++ [row])%list (Datatypes.S added) s Hfull)
             as (r & t & Hrun & Hres).
           rewrite Hrun. eexists _, _. split; [reflexivity |].
           destruct (List.length ((buf ++ [row]) ++ new_rows_of fs known_ids ids)
                     <? CHUNK_SIZE)%nat.
           ++ destruct Hres as (-> & Happ). split; [reflexivity |].
              appended_simpl; now rewrite ?Happ.
           ++ destruct Hres as (-> & Happ). split; [reflexivity |].
              appended_simpl; now rewrite ?Happ.
      * rewrite (loop_body_error fs known_ids buf added aid e0 s Hknown Htry Hlen).
        cbn [app].
        destruct (IH buf added s Hlen) as (r & t & Hrun & Hres).
        rewrite Hrun. eexists _, _. split; [reflexivity |].
        destruct (List.length (buf ++ new_rows_of fs known_ids ids) <? CHUNK_SIZE)%nat;
          destruct Hres as (-> & Happ); (split; [reflexivity |]);
          appended_simpl; now rewrite ?Happ.
Qed.

(** X6: on a worksheet that refuses every batch with [x], a run with no
    new row ends normally and sends nothing; otherwise the loop is left
    with [x] at the first batch, which holds the first [CHUNK_SIZE] new rows
    (all of them when there are fewer), and no other batch is tried.  The
    worksheet is as before. *)
Theorem refused_append_stops_the_run (ids : list string) (s : S) :
  let rows := new_rows_of fs known_ids ids in
  exists r t,
    upload fs known_ids ids s = (r, s, t) /\
    match rows with
    | [] => r = Ok 0%nat /\ appended t = []
    | _ :: _ => r = Err x /\ appended t = [firstn CHUNK_SIZE rows]
    end.
Proof.
  intros rows.
  assert (H0 : (List.length (@nil (list value)) < CHUNK_SIZE)%nat)
    by (unfold CHUNK_SIZE; simpl; lia).
  destruct (for_each_refused ids [] 0%nat s H0) as (r & t & Hrun & Hres).
  cbn [app Nat.add] in Hres. fold rows in Hres.
  unfold upload, mbind. rewrite Hrun.
  destruct (List.length rows <? CHUNK_SIZE)%nat eqn:Hshort.
  - destruct Hres as (-> & Happ). cbn [fst snd].
    destruct rows as [| row rows'] eqn:Hrows.
    + eexists _, _. split; [reflexivity |]. split; [reflexivity |].
      now rewrite !app_nil_r.
    + unfold call_append_rows, update. rewrite Hrefuses.
      eexists _, _. split; [reflexivity |]. split; [reflexivity |].
      rewrite appended_app, Happ. cbn [appended flat_map app].
      apply Nat.ltb_lt in Hshort.
      rewrite firstn_all2 by lia. reflexivity.
  - destruct Hres as (-> & Happ).
    destruct rows as [| row rows'] eqn:Hrows.
    + apply Nat.ltb_ge in Hshort. unfold CHUNK_SIZE in Hshort. simpl in Hshort. lia.
    + eexists _, _. split; [reflexivity |]. split; [reflexivity | exact Happ].
Qed.

End RefusedAppend.

Lemma refused_append_stops_the_run_witness :
  exists t,
    @upload ref_runtime sheet refusing_worksheet (directory (sample_files 3)) []
      ["1"; "2"; "3"] empty_sheet = (Err (APIError "quota exceeded"), empty_sheet, t) /\
    List.length (appended t) = 1%nat.
Proof.
  destruct (@refused_append_stops_the_run ref_runtime sheet refusing_worksheet
              (directory (sample_files 3)) [] (APIError "quota exceeded")
              (fun _ _ => eq_refl) ["1"; "2"; "3"] empty_sheet)
    as (r & t & Hrun & Hres).
  vm_compute in Hres. destruct Hres as (-> & Happ).
  exists t. split; [exact Hrun |].
  exact (f_equal (@List.length (list (list value))) Happ).
Defined.

(** ** The worksheet *)

Section WorksheetSetup.

Context {S : Type} {WS : Worksheet S}.

(** X7: [load_worksheet] creates the worksheet only when looking it up
    raises [WorksheetNotFound], and any other exception of the lookup
    leaves the function at once; then it writes the header row, one cell per
    entry of [HEADERS], exactly when row 1 is empty, and writes nothing over
    a first row that holds something. *)
Theorem load_worksheet_cases (s : S) :
  connect s = Ok tt ->
  (forall e,
     worksheet s WORKSHEET_NAME = Err e -> e <> WorksheetNotFound ->
     load_worksheet s = (Err e, s, [])) /\
  (forall s1 s2,
     worksheet s WORKSHEET_NAME = Err WorksheetNotFound ->
     add_worksheet s WORKSHEET_NAME = Ok s1 ->
     row_values s1 1 = Ok [] ->
     append_row s1 (map VStr HEADERS) = Ok s2 ->
     load_worksheet s = (Ok tt, s2, [AppendRow (map VStr HEADERS)])) /\
  (forall s2,
     worksheet s WORKSHEET_NAME = Ok tt ->
     row_values s 1 = Ok [] ->
     append_row s (map VStr HEADERS) = Ok s2 ->
     load_worksheet s = (Ok tt, s2, [AppendRow (map VStr HEADERS)])) /\
  (forall cell1 row1,
     worksheet s WORKSHEET_NAME = Ok tt ->
     row_values s 1 = Ok (cell1 :: row1) ->
     load_worksheet s = (Ok tt, s, [])).
Proof.
  intros Hc. unfold load_worksheet, mbind, catch, query, update, lift, ret.
  rewrite Hc. repeat split.
  - intros e Hw Hne. rewrite Hw. destruct e; try reflexivity. contradiction.
  - intros s1 s2 Hw Hadd Hrow Happ. rewrite Hw, Hadd, Hrow, Happ. reflexivity.
  - intros s2 Hw Hrow Happ. rewrite Hw, Hrow, Happ. reflexivity.
  - intros cell1 row1 Hw Hrow. rewrite Hw, Hrow. reflexivity.
Qed.

(** X8: the known identifiers are the texts of column 1 below its first
    row, each once: the header is left out, and an empty column gives the
    empty set and no exception.  An exception of the read leaves the
    function. *)
Theorem get_existing_ids_spec (s : S) :
  (forall col,
     col_values s 1 = Ok col ->
     exists known,
       get_existing_ids s = (Ok known, s, []) /\
       NoDup known /\
       (forall aid, In aid known <-> In aid (tl col)) /\
       (col = [] -> known = [])) /\
  (forall e, col_values s 1 = Err e -> get_existing_ids s = (Err e, s, [])).
Proof.
  split.
  - intros col Hcol. exists (set_of_list (tl col)).
    split; [now apply get_existing_ids_eq |].
    split; [apply NoDup_set_of_list |].
    split; [intros aid; apply In_set_of_list |].
    intros ->. reflexivity.
  - intros e Hcol. unfold get_existing_ids, mbind, query. rewrite Hcol. reflexivity.
Qed.

End WorksheetSetup.

Lemma load_worksheet_cases_witness :
  @load_worksheet sheet ref_worksheet empty_sheet =
    (Ok tt, {| sheet_exists := true; sheet_rows := [map VStr HEADERS] |},
     [AppendRow (map VStr HEADERS)]) /\
  @load_worksheet sheet ref_worksheet sheet_after_first_run =
    (Ok tt, sheet_after_first_run, []).
Proof.
  split.
  - apply (proj1 (proj2 (@load_worksheet_cases sheet ref_worksheet empty_sheet eq_refl))
             {| sheet_exists := true; sheet_rows := [] |}); reflexivity.
  - apply (proj2 (proj2 (proj2 (@load_worksheet_cases sheet ref_worksheet
                                  sheet_after_first_run eq_refl)))
             "activityId" (tl HEADERS)); reflexivity.
Defined.

Lemma get_existing_ids_spec_witness :
  exists known,
    @get_existing_ids sheet ref_worksheet sheet_after_first_run
      = (Ok known, sheet_after_first_run, []) /\
    NoDup known /\
    (In "2" known <-> In "2" ["1"; "2"; "3"]).
Proof.
  destruct (proj1 (@get_existing_ids_spec sheet ref_worksheet sheet_after_first_run)
              ["activityId"; "1"; "2"; "3"] eq_refl)
    as (known & Hrun & Hnd & Hin & _).
  exists known. split; [exact Hrun |]. split; [exact Hnd |]. apply Hin.
Defined.

(** ** Batches *)

Section Batches.

Context {RT : Runtime} {S : Type} {WS : Worksheet S}.
Variable fs : filesystem.

(** X9: whatever the files hold, every batch a run sends to a worksheet
    that takes them holds at least one row and at most [CHUNK_SIZE] rows. *)
Theorem batches_are_bounded (known_ids ids : list string) (s : S) :
  accepts_appends (S := S) ->
  exists n s' t,
    upload fs known_ids ids s = (Ok n, s', t) /\
    Forall (fun batch => (1 <= List.length batch <= CHUNK_SIZE)%nat) (appended t).
Proof.
  intros Haccepts.
  destruct (upload_spec fs known_ids ids s Haccepts) as (s' & t & Hrun & _ & Hsizes & _).
  eexists _, s', t. split; [exact Hrun |].
  set (n := List.length (new_rows_of fs known_ids ids)) in *.
  assert (Hall : Forall (fun k => (1 <= k <= CHUNK_SIZE)%nat)
                   (map (@List.length (list value)) (appended t))).
  { rewrite Hsizes. apply Forall_app. split.
    - apply Forall_forall. intros k Hk. apply repeat_spec in Hk. subst k.
      unfold CHUNK_SIZE. lia.
    - destruct (n mod CHUNK_SIZE =? 0)%nat eqn:E; constructor; [| constructor].
      apply Nat.eqb_neq in E.
      assert (n mod CHUNK_SIZE < CHUNK_SIZE)%nat
        by (apply Nat.mod_upper_bound; unfold CHUNK_SIZE; lia).
      lia. }
  apply Forall_map in Hall. exact Hall.
Qed.

End Batches.

Lemma batches_are_bounded_witness :
  exists n s' t,
    @upload ref_runtime sheet ref_worksheet (directory broken_files) []
      ["1"; "2"; "3"] empty_sheet = (Ok n, s', t) /\
    Forall (fun batch => (1 <= List.length batch <= CHUNK_SIZE)%nat) (appended t).
Proof.
  exact (@batches_are_bounded ref_runtime sheet ref_worksheet (directory broken_files)
           [] ["1"; "2"; "3"] empty_sheet ref_worksheet_accepts).
Defined.

(** ** From the documents to the row *)

Lemma dict_get_of_key (d : dict) (k : string) :
  In k (map fst d) -> exists v, dict_get d k = Some v.
Proof.
  induction d as [| [k0 v0] d IH]; [contradiction |].
  simpl. intros Hin. destruct (String.eqb k0 k) eqn:E; [eauto |].
  destruct Hin as [Heq | Hin]; [| auto].
  subst k0. rewrite String.eqb_refl in E. discriminate.
Qed.

Section Mapping.

Context {RT : Runtime}.

(** The record of a successful merge, field by field. *)
Lemma merge_data_fields (details flat : value) (m : dict) :
  merge_data details flat = Ok m ->
  (forall col path,
     In (col, path) details_columns ->
     exists v, lookup_path details path = Some v /\ dict_get m col = Some v) /\
  (exists start_local start_gmt tz,
     lookup_path details ["summaryDTO"; "startTimeLocal"] = Some start_local /\
     lookup_path details ["summaryDTO"; "startTimeGMT"] = Some start_gmt /\
     tz_offset_hours start_local start_gmt = Ok tz /\
     dict_get m "timezoneOffset" = Some tz) /\
  map fst m =
    ["activityId"; "activityName"; "activityTypeId"; "parentActivityTypeId";
     "eventTypeId"; "manualActivity"; "favorite"; "personalRecord";
     "startTimeLocal"; "startTimeGMT"; "activityTimestampMs"; "timezoneOffset";
     "duration"; "movingDuration"; "elapsedDuration"; "distance"; "averageSpeed";
     "maxSpeed"; "totalSteps"; "totalElevationGain"; "totalElevationLoss";
     "minElevation"; "maxElevation"; "startLatitude"; "startLongitude";
     "endLatitude"; "endLongitude"; "averageHeartRate"; "maxHeartRate";
     "averageCadence"; "maxCadence"; "vo2MaxValue"; "activeKilocalories";
     "bmrKilocalories"; "bodyBatteryDelta"; "hrZone1Seconds"; "hrZone2Seconds";
     "hrZone3Seconds"; "hrZone4Seconds"; "hrZone5Seconds";
     "moderateIntensityMinutes"; "vigorousIntensityMinutes";
     "hydrationConsumedMl"; "splitsJSON"].
Proof.
  intros H. unfold merge_data in H.
  repeat bind_inv H. injection H as <-.
  repeat match goal with
         | Hs : subscript2 _ _ _ = Ok _ |- _ => apply subscript2_lookup in Hs
         | Hs : subscript _ _ = Ok _ |- _ => apply subscript_lookup in Hs
         end.
  split; [| split].
  - intros col path Hin. unfold details_columns in Hin. simpl in Hin.
    repeat (destruct Hin as [[= <- <-] | Hin];
            [eexists; split; [eassumption | reflexivity] |]).
    contradiction.
  - eexists _, _, _. repeat split; eassumption || reflexivity.
  - reflexivity.
Qed.

(** X10: after a successful merge, each column filled from [details] holds
    in the row the value found at its path in [details]: the value itself,
    or its JSON text cut to [MAX_CELL_LENGTH] when it is a list or a dict.
    In particular the first cell is [details["activityId"]], not the
    identifier of the file name. *)
Theorem row_cell_from_details
    (details flat : value) (m : dict) (row : list value)
    (i : nat) (col : string) (path : list string) :
  merge_data details flat = Ok m ->
  build_row m = Ok row ->
  In (col, path) details_columns ->
  nth_error HEADERS i = Some col ->
  exists v,
    lookup_path details path = Some v /\
    nth_error row i =
      Some (if is_nested v then VStr (str_slice_to (json_dumps v) MAX_CELL_LENGTH) else v).
Proof.
  intros Hm Hrow Hin Hcol.
  destruct (merge_data_fields details flat m Hm) as (Hfields & _ & _).
  destruct (Hfields col path Hin) as (v & Hpath & Hget).
  destruct (build_row_cells_inv m row Hrow) as (stride & pace & _ & _ & _ & Hcells).
  exists v. split; [exact Hpath |].
  rewrite (Hcells i col Hcol), Hget.
  assert (Hnd : String.eqb "averagePaceMinPerKm" col = false /\
                String.eqb "averageStrideLength" col = false).
  { clear - Hin. unfold details_columns in Hin. simpl in Hin.
    repeat (destruct Hin as [[= <- <-] | Hin]; [split; reflexivity |]).
    contradiction. }
  destruct Hnd as (-> & ->). reflexivity.
Qed.

(** X11: the record of a successful merge has 44 fields with distinct
    names, which are the entries of [HEADERS] other than the two derived
    columns: after [merge_data], the empty-string default of [build_row] for
    a missing key serves no column. *)
Theorem merged_record_keys (details flat : value) (m : dict) :
  merge_data details flat = Ok m ->
  List.length m = 44%nat /\
  NoDup (map fst m) /\
  (forall col,
     In col (map fst m) <->
     In col HEADERS /\ col <> "averageStrideLength" /\ col <> "averagePaceMinPerKm") /\
  (forall col, In col (map fst m) -> exists v, dict_get m col = Some v).
Proof.
  intros Hm.
  destruct (merge_data_fields details flat m Hm) as (_ & _ & Hkeys).
  split; [| split; [| split]].
  - rewrite <- (length_map fst), Hkeys. reflexivity.
  - rewrite Hkeys.
    repeat (constructor; [simpl; intuition discriminate |]). constructor.
  - intros col. rewrite Hkeys. unfold HEADERS. split.
    + intros Hin. simpl in Hin.
      repeat (destruct Hin as [<- | Hin];
              [split; [simpl; tauto | split; discriminate] |]).
      contradiction.
    + intros (Hin & Hs & Hp). simpl in Hin.
      repeat (destruct Hin as [<- | Hin]; [simpl; tauto || contradiction |]).
      contradiction.
  - intros col. apply dict_get_of_key.
Qed.

End Mapping.

Lemma row_cell_from_details_witness :
  nth_error sample_row 0 = Some (VInt 12345) /\
  nth_error sample_row 15 = Some (VInt 5000).
Proof.
  assert (Hid : In ("activityId", ["activityId"]) details_columns)
    by (vm_compute; tauto).
  assert (Hdist : In ("distance", ["summaryDTO"; "distance"]) details_columns)
    by (vm_compute; tauto).
  split.
  - destruct (@row_cell_from_details ref_runtime (sample_details 12345 sample_splits)
                sample_flat sample_merged sample_row 0%nat "activityId" ["activityId"]
                eq_refl eq_refl Hid eq_refl)
      as (v & Hpath & Hcell).
    injection Hpath as <-. exact Hcell.
  - destruct (@row_cell_from_details ref_runtime (sample_details 12345 sample_splits)
                sample_flat sample_merged sample_row 15%nat "distance"
                ["summaryDTO"; "distance"] eq_refl eq_refl Hdist eq_refl)
      as (v & Hpath & Hcell).
    injection Hpath as <-. exact Hcell.
Defined.

Lemma merged_record_keys_witness :
  List.length sample_merged = 44%nat /\ NoDup (map fst sample_merged).
Proof.
  destruct (@merged_record_keys ref_runtime (sample_details 12345 sample_splits)
              sample_flat sample_merged eq_refl) as (Hlen & Hnd & _).
  split; assumption.
Defined.

(** ** Numbers of the record *)

Lemma float_round_error (x : float) (ndigits : Z) (e : exn) :
  float_round x ndigits = Err e -> e = OverflowError.
Proof.
  unfold float_round. destruct (Prim2SF x); try discriminate.
  match goal with |- (if ?c then _ else _) = _ -> _ => destruct c end;
    [intros [= <-]; reflexivity | discriminate].
Qed.

Lemma truediv_by_60 (f : float) :
  py_truediv (VFloat f) (VInt 60) = Ok (VFloat (f / 60)).
Proof. reflexivity. Qed.

(** X12: the only exceptions [compute_pace_min_per_km] raises are
    [TypeError], on a speed that is no number, and [OverflowError]: the test
    on the speed keeps the division by zero away. *)
Theorem compute_pace_errors (v : value) (e : exn) :
  compute_pace_min_per_km v = Err e -> e = TypeError \/ e = OverflowError.
Proof.
  unfold compute_pace_min_per_km.
  assert (Hround : forall f : float,
            (q <- py_truediv (VFloat f) (VInt 60) ;; py_round q 2) = Err e ->
            e = TypeError \/ e = OverflowError).
  { intros f. rewrite truediv_by_60. cbn [bind py_round].
    destruct (float_round (f / 60) 2) as [r | e'] eqn:E; [discriminate |].
    intros [= <-]. right. eapply float_round_error; exact E. }
  destruct (truthy v) eqn:T; [| discriminate].
  destruct v as [| b | z | f | s | l | d]; simpl in T.
  - discriminate.
  - subst b. vm_compute. discriminate.
  - apply negb_true_iff in T. unfold py_truediv at 1. cbn [bind].
    unfold int_truediv. rewrite T.
    destruct (is_infinite (Z_div_float 1000 z)).
    + intros [= <-]. now right.
    + cbn [bind]. apply Hround.
  - apply negb_true_iff in T. unfold py_truediv at 1.
    change (float_of_int 1000) with (Ok 1000%float). cbn [bind].
    unfold float_truediv. rewrite T. cbn [bind]. apply Hround.
  - intros [= <-]. now left.
  - intros [= <-]. now left.
  - intros [= <-]. now left.
Qed.

Lemma compute_pace_errors_witness :
  compute_pace_min_per_km (VStr "fast") = Err TypeError /\
  (TypeError = TypeError \/ TypeError = OverflowError).
Proof.
  split; [reflexivity |].
  exact (compute_pace_errors (VStr "fast") TypeError eq_refl).
Defined.

(** The seconds of a whole number of quarter hours, divided by 3600, are
    that number of quarter hours as a float, with no rounding. *)
Lemma quarter_hours_exact :
  Forall
    (fun q =>
       (secs <- total_seconds (q * 900000000) ;; py_truediv (VFloat secs) (VInt 3600)) =
       (h <- int_truediv q 4 ;; Ok (VFloat h)))
    (map (fun n => Z.of_nat n - 96) (seq 0 193)).
Proof.
  repeat (apply Forall_cons; [vm_compute; reflexivity |]). apply Forall_nil.
Qed.

Section TimeZone.

Context {RT : Runtime}.

(** X13: when the two start times are naive and differ by [q] quarter
    hours, at most a day either way, the time-zone offset is the float
    [q / 4], exactly: neither of the two divisions rounds. *)
Theorem timezone_offset_quarter_hours
    (start_local start_gmt : string) (a b : datetime) (q : Z) :
  fromisoformat start_local = Ok a ->
  fromisoformat start_gmt = Ok b ->
  dt_utcoffset a = None ->
  dt_utcoffset b = None ->
  dt_micros a - dt_micros b = q * 900000000 ->
  -96 <= q <= 96 ->
  tz_offset_hours (VStr start_local) (VStr start_gmt) =
    (h <- int_truediv q 4 ;; Ok (VFloat h)).
Proof.
  intros Ha Hb Hoa Hob Hdiff Hq.
  unfold tz_offset_hours, datetime_fromisoformat. rewrite Ha, Hb. cbn [bind].
  unfold datetime_sub. rewrite Hoa, Hob. cbn [bind]. rewrite Hdiff.
  assert (Hin : In q (map (fun n => Z.of_nat n - 96) (seq 0 193))).
  { apply in_map_iff. exists (Z.to_nat (q + 96)). split; [lia |].
    apply in_seq. lia. }
  exact (proj1 (Forall_forall _ _) quarter_hours_exact q Hin).
Qed.

End TimeZone.

Lemma timezone_offset_quarter_hours_witness :
  @tz_offset_hours ref_runtime (VStr "2024-05-01T10:00:00") (VStr "2024-05-01T08:00:00")
    = Ok (VFloat 2).
Proof.
  rewrite (@timezone_offset_quarter_hours ref_runtime
             "2024-05-01T10:00:00" "2024-05-01T08:00:00"
             {| dt_micros := 63850154400000000; dt_utcoffset := None |}
             {| dt_micros := 63850147200000000; dt_utcoffset := None |}
             8 eq_refl eq_refl eq_refl eq_refl eq_refl);
    [reflexivity | lia].
Defined.

(** ** Errors of the merge and of the connection *)

Lemma bind_err_intro {A B : Type} (r : result A) (k : A -> result B) (a : A) (e : exn) :
  r = Ok a -> k a = Err e -> bind r k = Err e.
Proof. intros -> H. exact H. Qed.

Section MergeErrors.

Context {RT : Runtime}.

(** X14: a details document without [summaryDTO] raises the [KeyError] of
    that key, whatever else is missing, and a details document that is no
    dict raises [TypeError].  A flat document that is no dict raises
    [AttributeError] once the fields before [beginTimestamp] are read,
    although none of its fields is required. *)
Theorem merge_data_errors (details flat : value) :
  (forall d,
     details = VDict d -> dict_get d "summaryDTO" = None ->
     merge_data details flat = Err (KeyError "summaryDTO")) /\
  (match details with VDict _ => True | _ => False end \/
   merge_data details flat = Err TypeError) /\
  (forall fd m,
     merge_data details (VDict fd) = Ok m ->
     match flat with VDict _ => True | _ => False end \/
     merge_data details flat = Err AttributeError).
Proof.
  split; [| split].
  - intros d -> Hnone. unfold merge_data, subscript2, subscript.
    rewrite Hnone. reflexivity.
  - destruct details; try (right; reflexivity). now left.
  - intros fd m Hm.
    destruct flat as [| ? | ? | ? | ? | ? | fd0]; try (now left); right;
      unfold merge_data in Hm; repeat bind_inv Hm; clear Hm;
      unfold merge_data;
      repeat (eapply bind_err_intro; [eassumption | cbv beta]);
      reflexivity.
Qed.

End MergeErrors.

Lemma merge_data_errors_witness :
  @merge_data ref_runtime details_without_summary sample_flat
    = Err (KeyError "summaryDTO") /\
  @merge_data ref_runtime (sample_details 12345 sample_splits) (VList [])
    = Err AttributeError.
Proof.
  split.
  - apply (proj1 (@merge_data_errors ref_runtime details_without_summary sample_flat)
             [("activityId", VInt 7); ("activityName", VStr "Walk")]); reflexivity.
  - destruct (proj2 (proj2 (@merge_data_errors ref_runtime
                              (sample_details 12345 sample_splits) (VList [])))
                [] merged_without_flat eq_refl) as [[] | H].
    exact H.
Defined.

Section ConnectionErrors.

Context {RT : Runtime} {S : Type} {WS : Worksheet S}.
Variable fs : filesystem.

(** X15: when the connection to the spreadsheet raises, the run reads no
    directory and opens no file: it prints the exception, waits for the key
    and ends normally, the worksheet untouched. *)
Theorem main_connection_error (s : S) (e : exn) :
  connect s = Err e ->
  main fs s = (Ok tt, s, [Print (MsgInattendue e); Input]).
Proof.
  intros Hc.
  unfold main, main_body, load_worksheet, catch, mbind, query, print, emit.
  rewrite Hc. reflexivity.
Qed.

End ConnectionErrors.

Lemma main_connection_error_witness :
  @main ref_runtime sheet offline_worksheet (directory (sample_files 3)) empty_sheet =
    (Ok tt, empty_sheet, [Print (MsgInattendue (APIError "no network")); Input]).
Proof.
  exact (@main_connection_error ref_runtime sheet offline_worksheet
           (directory (sample_files 3)) empty_sheet (APIError "no network") eq_refl).
Defined.
